(** * CLReductionOperation: staged reduction along an axis

    A shallow embedding of [src/runtime/CL/functions/CLReductionOperation.cpp]
    (stage planning, [validate], [configure], [run]) and the properties of
    its natural-language specification.

    Conventions of the embedding:
    - [unsigned int] values are [N] below [2^32], with the wrap-around of
      every arithmetic operation of the source written out;
    - extents ([size_t], 64 bits wide on the 64-bit targets of the library)
      are [N];
    - [float] is IEEE-754 binary32, evaluated in single precision; the only
      rounding operation of the source is the conversion of an extent to
      [float], which is modelled exactly;
    - arrays are lists, read and written through checked accessors: an
      index outside the array is the outcome [OutOfBounds];
    - the member variables of the function object and the calls made to the
      external collaborators (kernel validation, scheduler, memory group)
      are threaded through a state monad [M] over a [World]. *)

From Stdlib Require Import NArith ZArith Lia String List Bool.
From stdpp Require Import base numbers list.

Local Open Scope N_scope.

(** ** Machine arithmetic *)

Definition UINT_RANGE : N := 2 ^ 32.

(** [a - b] on [unsigned int]. *)
Definition uint_sub (a b : N) : N := (a + UINT_RANGE - b mod UINT_RANGE) mod UINT_RANGE.

(** [a + b] on [unsigned int]. *)
Definition uint_add (a b : N) : N := (a + b) mod UINT_RANGE.

(** Conversion of a [size_t] to [unsigned int]
    ([const unsigned int input_width = input->info()->dimension(0)]). *)
Definition uint_of_size_t (d : N) : N := d mod UINT_RANGE.

(** Number of significand bits of [float] (IEEE-754 binary32). *)
Definition FLT_MANT_DIG : N := 24.

(** Conversion of an unsigned integer to [float], as it happens to the left
    operand of [input->dimension(0) / 128.f]: the nearest value with a
    24-bit significand, ties to the even significand.  The result is
    given as the integer the [float] denotes. *)
Definition float_of_uint (d : N) : N :=
  let ulp := 2 ^ (N.log2 d + 1 - FLT_MANT_DIG) in
  let q := d / ulp in
  let r := d mod ulp in
  if 2 * r <? ulp then q * ulp
  else if ulp <? 2 * r then (q + 1) * ulp
  else if N.even q then q * ulp else (q + 1) * ulp.

(** [ceil(d / 128.f)] for an integer [d]: the conversion of [d] to [float]
    rounds; the division by the power of two [128.f] and [ceil] are exact,
    and so is the conversion of the integral result to [size_t] in
    [shape.set(0, ceil(shape.x() / 128.f))]. *)
Definition ceil_div_128f (d : N) : N := (float_of_uint d + 127) / 128.

(** [ceil(a / b)] over the integers. *)
Definition ceil_div (a b : N) : N := (a + b - 1) / b.

(** The stage count the specification gives for an axis-0 extent [d]:
    [floor(ceil(d / 128) / 128) + 2]. *)
Definition stage_count_formula (d : N) : N := ceil_div d 128 / 128 + 2.

(** The chain of exact quotients [ceil(d / 128)], [ceil(ceil(d / 128) / 128)], ... *)
Fixpoint ceil_chain (count : nat) (d : N) : list N :=
  match count with
  | O => []
  | Datatypes.S count' => ceil_div d 128 :: ceil_chain count' (ceil_div d 128)
  end.

(** ** Reduction kinds, statuses *)

(** Modelled from the spec: the enumeration [ReductionOperation] is declared
    in a header that is not part of the sources at hand.  The spec's data
    model lists SUM, MEAN_SUM, SUM_SQUARE and other kinds that are not
    supported on the staged path; [OTHER_KIND] stands for those. *)
Inductive ReductionOperation : Type :=
| SUM_SQUARE
| SUM
| MEAN_SUM
| OTHER_KIND (id : nat).

Inductive ErrorCode : Type := OK | RUNTIME_ERROR.

(** Modelled from the spec: [Status] (declared in Error.h) is a success or a
    failure that carries a descriptive reason. *)
Record Status : Type := mkStatus {
  error_code : ErrorCode;
  error_description : string }.

(** [Status{}] *)
Definition Status_default : Status := mkStatus OK EmptyString.

Definition is_error (s : Status) : bool :=
  match error_code s with OK => false | RUNTIME_ERROR => true end.

(** ** Tensor descriptors *)

(** Modelled from the spec: a shape is the ordered sequence of the extents
    of the dimensions; [x()] reads the extent of dimension 0 and [set(0, v)]
    replaces it, leaving every other extent as it is. *)
Abbreviation TensorShape := (list N) (only parsing).

Definition shape_x (shape : TensorShape) : N := default 0 (shape !! 0%nat).

Definition shape_set0 (v : N) (shape : TensorShape) : TensorShape := <[0%nat := v]> shape.

(** The element types and the predicate [is_data_type_quantized] are
    declared outside the sources at hand: they are parameters. *)
Class DataTypes : Type := {
  DataType : Type;
  DataType_UNKNOWN : DataType;
  is_data_type_quantized : DataType -> bool }.

(** A pointer into the tensors a kernel works on: the caller's input, the
    caller's output, or element [i] of [_sums_vector]. *)
Inductive tensor_ref : Type :=
| InputTensor
| OutputTensor
| SumsTensor (i : nat).

(** The arguments a [CLReductionOperationKernel] was configured with; the
    optional scalar [width] is [None] where the call leaves it out. *)
Record KernelConfig : Type := mkKernelConfig {
  k_input : tensor_ref;
  k_output : tensor_ref;
  k_axis : N;
  k_op : ReductionOperation;
  k_width : option N }.

(** A kernel object is unconfigured ([None]) until [configure] is called. *)
Abbreviation CLReductionOperationKernel := (option KernelConfig) (only parsing).

(** The one border mode the functions at hand use. *)
Inductive BorderMode : Type := CONSTANT.

Section Descriptors.
Context `{DataTypes}.

Record TensorInfo : Type := mkTensorInfo {
  tensor_shape : TensorShape;
  data_type : DataType;
  num_channels : N }.

(** [TensorInfo()] *)
Definition TensorInfo_default : TensorInfo := mkTensorInfo [] DataType_UNKNOWN 0.

(** [info->dimension(index)]; the functions at hand read dimension 0 only. *)
Definition dimension (info : TensorInfo) (index : nat) : N :=
  default 0 (tensor_shape info !! index).

Definition set_data_type (dt : DataType) (info : TensorInfo) : TensorInfo :=
  mkTensorInfo (tensor_shape info) dt (num_channels info).

Definition set_tensor_shape (shape : TensorShape) (info : TensorInfo) : TensorInfo :=
  mkTensorInfo shape (data_type info) (num_channels info).

Definition set_num_channels (n : N) (info : TensorInfo) : TensorInfo :=
  mkTensorInfo (tensor_shape info) (data_type info) n.

(** A device tensor: its descriptor and whether its buffer is allocated. *)
Record CLTensor : Type := mkCLTensor {
  info : TensorInfo;
  is_allocated : bool }.

(** [CLTensor()] *)
Definition CLTensor_default : CLTensor := mkCLTensor TensorInfo_default false.

(** [t.allocator()->init(i)] *)
Definition allocator_init (i : TensorInfo) (t : CLTensor) : CLTensor :=
  mkCLTensor i (is_allocated t).

(** [t.allocator()->allocate()] *)
Definition allocator_allocate (t : CLTensor) : CLTensor :=
  mkCLTensor (info t) true.
End Descriptors.

(** The external collaborators: the kernel's validation contract, the halo
    a configured kernel asks for, and what the target does when a [float]
    too large for [unsigned int] is converted to it (C++ leaves the value
    open; it is stored in an [unsigned int] whatever it is). *)
Class Collaborators `{DataTypes} : Type := {
  kernel_validate :
    TensorInfo -> TensorInfo -> N -> ReductionOperation -> option N -> Status;
  BorderSize : Type;
  kernel_border_size : CLReductionOperationKernel -> BorderSize;
  uint_of_float_overflow : N -> N }.

(** ** The function object, the world and the monad *)

Section Model.
Context `{Collaborators}.

(** A [CLFillBorderKernel] as configured: the tensor whose border it fills,
    the border size, the mode and the constant written ([PixelValue(0)]). *)
Record BorderConfig : Type := mkBorderConfig {
  b_tensor : tensor_ref;
  b_border_size : BorderSize;
  b_border_mode : BorderMode;
  b_constant : N }.

Abbreviation CLFillBorderKernel := (option BorderConfig) (only parsing).

(** The member variables of [CLReductionOperation]; [_memory_group] is the
    list of the tensors handed to [manage], in the order of the calls. *)
Record CLReductionOperation : Type := mkCLReductionOperation {
  _memory_group : list tensor_ref;
  _sums_vector : list CLTensor;
  _reduction_kernels_vector : list CLReductionOperationKernel;
  _border_handlers_vector : list CLFillBorderKernel;
  _num_of_stages : N;
  _reduction_axis : N;
  _is_quantized : bool }.

(** The constructor: every member value-initialised. *)
Definition CLReductionOperation_new : CLReductionOperation :=
  mkCLReductionOperation [] [] [] [] 0 0 false.

(** What [run] hands to the scheduler. *)
Inductive kernel_ref : Type :=
| BorderHandler (i : nat)
| ReductionKernel (i : nat).

(** Calls to the external collaborators, in the order they are made. *)
Inductive event : Type :=
| KernelValidate (input output : TensorInfo) (axis : N)
    (op : ReductionOperation) (width : option N)
| MemoryGroupAcquire
| MemoryGroupRelease
| Enqueue (k : kernel_ref) (flush : bool).

Record World : Type := mkWorld {
  this : CLReductionOperation;
  trace : list event }.

(** Outcomes of a piece of code: normal completion, a [return] out of the
    enclosing function, the fatal error of ARM_COMPUTE_ERROR, or an access
    outside an array. *)
Inductive result (A : Type) : Type :=
| Ret (a : A)
| Returned (s : Status)
| Fatal (msg : string)
| OutOfBounds.
#[global] Arguments Ret {A} a.
#[global] Arguments Returned {A} s.
#[global] Arguments Fatal {A} msg.
#[global] Arguments OutOfBounds {A}.

Definition M (A : Type) : Type := World -> World * result A.

Definition ret {A : Type} (a : A) : M A := fun w => (w, Ret a).

Definition bind {A B : Type} (m : M A) (k : A -> M B) : M B :=
  fun w =>
    match m w with
    | (w', Ret a) => k a w'
    | (w', Returned s) => (w', Returned s)
    | (w', Fatal msg) => (w', Fatal msg)
    | (w', OutOfBounds) => (w', OutOfBounds)
    end.

Notation "'let*' x ':=' m 'in' k" := (bind m (fun x => k))
  (at level 10, x pattern, m at level 100, k at level 200).

(** [return s;] *)
Definition return_status {A : Type} (s : Status) : M A := fun w => (w, Returned s).

(** The body of a function that returns a [Status]. *)
Definition function_body (m : M Status) : M Status :=
  fun w =>
    match m w with
    | (w', Returned s) => (w', Ret s)
    | other => other
    end.

(** Modelled from the spec: ARM_COMPUTE_ERROR (declared in Error.h) does not
    return to its caller: the spec calls it an unconditional abort, fatal
    for the staged path; it is also used in [configure], which returns
    [void]. *)
Definition ARM_COMPUTE_ERROR {A : Type} (msg : string) : M A := fun w => (w, Fatal msg).

(** Modelled from the spec: ARM_COMPUTE_RETURN_ON_ERROR (declared in Error.h)
    returns a failed status to the caller as it is and goes on otherwise. *)
Definition ARM_COMPUTE_RETURN_ON_ERROR (s : Status) : M unit :=
  if is_error s then return_status s else ret tt.

Definition emit (e : event) : M unit :=
  fun w => (mkWorld (this w) (trace w ++ [e]), Ret tt).

Definition get_this : M CLReductionOperation := fun w => (w, Ret (this w)).

Definition modify_this (f : CLReductionOperation -> CLReductionOperation) : M unit :=
  fun w => (mkWorld (f (this w)) (trace w), Ret tt).

(** Element [off] of an array, reached through a pointer or an index. *)
Definition at_offset {A : Type} (a : list A) (off : Z) : M A :=
  if (off <? 0)%Z then (fun w => (w, OutOfBounds))
  else match a !! Z.to_nat off with
       | Some x => ret x
       | None => fun w => (w, OutOfBounds)
       end.

(** [for (unsigned int i = lo; i < hi; ++i) body], with the local variables
    the body updates as the loop state. *)
Fixpoint for_loop {S : Type} (count : nat) (i : N) (body : N -> S -> M S) (s : S) : M S :=
  match count with
  | O => ret s
  | Datatypes.S count' => let* s' := body i s in for_loop count' (i + 1) body s'
  end.

Definition for_range {S : Type} (lo hi : N) (body : N -> S -> M S) (s : S) : M S :=
  for_loop (N.to_nat (hi - lo)) lo body s.

(** ** calculate_number_of_stages *)

(** Conversion of the value of [ceil] to [unsigned int]
    ([const unsigned int num_of_wg = ceil(...)]): the value itself when it
    fits, and what the target makes of it otherwise. *)
Definition uint_of_float (x : N) : N :=
  if x <? UINT_RANGE then x else uint_of_float_overflow x mod UINT_RANGE.

(** The condition [axis == 0 && !is_data_type_quantized(...)] under which
    [validate] and [configure] take the staged path. *)
Definition on_staged_path (input : TensorInfo) (axis : N) : bool :=
  (axis =? 0) && negb (is_data_type_quantized (data_type input)).

Definition calculate_number_of_stages (input : TensorInfo) (axis : N) : N :=
  if negb (axis =? 0) || ((axis =? 0) && is_data_type_quantized (data_type input))
  then 1
  else
    let num_of_wg := uint_of_float (ceil_div_128f (dimension input 0)) in
    let num_of_stages := uint_add (num_of_wg / 128) 2 in
    num_of_stages.

(** ** Accessors of the member variables *)

Definition set_memory_group (v : list tensor_ref) (o : CLReductionOperation) :=
  mkCLReductionOperation v (_sums_vector o) (_reduction_kernels_vector o)
    (_border_handlers_vector o) (_num_of_stages o) (_reduction_axis o) (_is_quantized o).

Definition set_sums_vector (v : list CLTensor) (o : CLReductionOperation) :=
  mkCLReductionOperation (_memory_group o) v (_reduction_kernels_vector o)
    (_border_handlers_vector o) (_num_of_stages o) (_reduction_axis o) (_is_quantized o).

Definition set_reduction_kernels_vector (v : list CLReductionOperationKernel)
  (o : CLReductionOperation) :=
  mkCLReductionOperation (_memory_group o) (_sums_vector o) v
    (_border_handlers_vector o) (_num_of_stages o) (_reduction_axis o) (_is_quantized o).

Definition set_border_handlers_vector (v : list CLFillBorderKernel)
  (o : CLReductionOperation) :=
  mkCLReductionOperation (_memory_group o) (_sums_vector o) (_reduction_kernels_vector o)
    v (_num_of_stages o) (_reduction_axis o) (_is_quantized o).

Definition set_num_of_stages (v : N) (o : CLReductionOperation) :=
  mkCLReductionOperation (_memory_group o) (_sums_vector o) (_reduction_kernels_vector o)
    (_border_handlers_vector o) v (_reduction_axis o) (_is_quantized o).

Definition set_reduction_axis (v : N) (o : CLReductionOperation) :=
  mkCLReductionOperation (_memory_group o) (_sums_vector o) (_reduction_kernels_vector o)
    (_border_handlers_vector o) (_num_of_stages o) v (_is_quantized o).

Definition set_is_quantized (v : bool) (o : CLReductionOperation) :=
  mkCLReductionOperation (_memory_group o) (_sums_vector o) (_reduction_kernels_vector o)
    (_border_handlers_vector o) (_num_of_stages o) (_reduction_axis o) v.

(** [a[off] = f(a[off])] on a local array. *)
Definition update_at {A : Type} (a : list A) (off : Z) (f : A -> A) : M (list A) :=
  let* x := at_offset a off in
  ret (<[Z.to_nat off := f x]> a).

(** [_sums_vector.get() + off], a pointer the callee dereferences. *)
Definition sums_pointer (off : Z) : M tensor_ref :=
  let* o := get_this in
  let* _ := at_offset (_sums_vector o) off in
  ret (SumsTensor (Z.to_nat off)).

(** [_sums_vector[off]] updated in place. *)
Definition sums_update (off : Z) (f : CLTensor -> CLTensor) : M unit :=
  let* o := get_this in
  let* v := update_at (_sums_vector o) off f in
  modify_this (set_sums_vector v).

(** [_memory_group.manage(p)] *)
Definition memory_group_manage (p : tensor_ref) : M unit :=
  modify_this (fun o => set_memory_group (_memory_group o ++ [p]) o).

(** [_reduction_kernels_vector[i].configure(...)] *)
Definition kernel_configure (i : N) (c : KernelConfig) : M unit :=
  let* o := get_this in
  let* v := update_at (_reduction_kernels_vector o) (Z.of_N i) (fun _ => Some c) in
  modify_this (set_reduction_kernels_vector v).

(** [_reduction_kernels_vector[i].border_size()] *)
Definition kernel_border (i : N) : M BorderSize :=
  let* o := get_this in
  let* k := at_offset (_reduction_kernels_vector o) (Z.of_N i) in
  ret (kernel_border_size k).

(** [_border_handlers_vector[i].configure(...)] *)
Definition border_configure (i : N) (c : BorderConfig) : M unit :=
  let* o := get_this in
  let* v := update_at (_border_handlers_vector o) (Z.of_N i) (fun _ => Some c) in
  modify_this (set_border_handlers_vector v).

(** [CLReductionOperationKernel::validate(input, output, axis, op, width)];
    [width] is the optional [unsigned int] scalar of the kernel, the one
    [configure] passes as [input_width]. *)
Definition CLReductionOperationKernel_validate (input output : TensorInfo) (axis : N)
  (op : ReductionOperation) (width : option N) : M Status :=
  let* _ := emit (KernelValidate input output axis op width) in
  ret (kernel_validate input output axis op width).

(** ** CLReductionOperation::validate *)

(** The body of the loop of [validate] over the temporary tensor infos; the
    loop state is the local [shape] and the array [sums_vector]. *)
Definition validate_sums_body (input : TensorInfo) (i : N)
  (st : TensorShape * list TensorInfo) : M (TensorShape * list TensorInfo) :=
  let shape := shape_set0 (ceil_div_128f (shape_x (fst st))) (fst st) in
  let* sums_vector :=
    update_at (snd st) (Z.of_N i) (set_data_type (data_type input)) in
  let* sums_vector :=
    update_at sums_vector (Z.of_N i) (set_tensor_shape shape) in
  let* sums_vector :=
    update_at sums_vector (Z.of_N i) (set_num_channels (num_channels input)) in
  ret (shape, sums_vector).

(** The temporary tensor infos of [validate]: the array of
    [num_of_stages - 1] descriptors and the loop that fills it. *)
Definition validate_sums_vector (input : TensorInfo) (num_of_stages : N)
  : M (list TensorInfo) :=
  let sums_vector := replicate (N.to_nat (uint_sub num_of_stages 1)) TensorInfo_default in
  let* st :=
    for_range 0 (uint_sub num_of_stages 1) (validate_sums_body input)
      (tensor_shape input, sums_vector) in
  ret (snd st).

(** The body of the loop of [validate] over the intermediate stages. *)
Definition validate_middle_body (sums_vector : list TensorInfo) (axis : N) (i : N)
  (_ : unit) : M unit :=
  let* a := at_offset sums_vector (Z.of_N i - 1) in
  let* b := at_offset sums_vector (Z.of_N i) in
  let* s := CLReductionOperationKernel_validate a b axis SUM None in
  ARM_COMPUTE_RETURN_ON_ERROR s.

Definition validate (input output : TensorInfo) (axis : N) (op : ReductionOperation)
  : M Status :=
  function_body (
    let num_of_stages := calculate_number_of_stages input axis in
    if (axis =? 0) && negb (is_data_type_quantized (data_type input)) then
      let* sums_vector := validate_sums_vector input num_of_stages in
      let* (first_kernel_op, last_kernel_op) :=
        match op with
        | SUM | MEAN_SUM => ret (SUM, op)
        | SUM_SQUARE => ret (SUM_SQUARE, SUM)
        | _ => ARM_COMPUTE_ERROR "Not supported"
        end in
      let* sums0 := at_offset sums_vector 0 in
      let* s := CLReductionOperationKernel_validate input sums0 axis first_kernel_op None in
      let* _ := ARM_COMPUTE_RETURN_ON_ERROR s in
      let* _ :=
        for_range 1 (uint_sub num_of_stages 1)
          (validate_middle_body sums_vector axis) tt in
      let last_stage := uint_sub num_of_stages 1 in
      let* a := at_offset sums_vector (Z.of_N last_stage - 1) in
      let* s :=
        CLReductionOperationKernel_validate a output axis last_kernel_op
          (Some (uint_of_size_t (dimension input 0))) in
      let* _ := ARM_COMPUTE_RETURN_ON_ERROR s in
      return_status Status_default
    else
      let* s := CLReductionOperationKernel_validate input output axis op None in
      let* _ := ARM_COMPUTE_RETURN_ON_ERROR s in
      return_status Status_default).

(** ** CLReductionOperation::configure *)

(** The body of the loop of [configure] that initialises the temporary
    tensors; the loop state is the local [shape]. *)
Definition configure_sums_body (input : CLTensor) (i : N) (shape : TensorShape)
  : M TensorShape :=
  let shape := shape_set0 (ceil_div_128f (shape_x shape)) shape in
  let* _ := sums_update (Z.of_N i)
              (allocator_init (set_tensor_shape shape (info input))) in
  ret shape.

(** The body of the loop of [configure] over the intermediate stages. *)
Definition configure_middle_body (axis : N) (i : N) (_ : unit) : M unit :=
  let* p := sums_pointer (Z.of_N i) in
  let* _ := memory_group_manage p in
  let* src := sums_pointer (Z.of_N i - 1) in
  let* dst := sums_pointer (Z.of_N i) in
  let* _ := kernel_configure i (mkKernelConfig src dst axis SUM None) in
  let* src := sums_pointer (Z.of_N i - 1) in
  let* b := kernel_border i in
  let* _ := border_configure i (mkBorderConfig src b CONSTANT 0) in
  sums_update (Z.of_N i - 1) allocator_allocate.

Definition configure (input output : CLTensor) (axis : N) (op : ReductionOperation)
  : M unit :=
  let* _ := modify_this (set_num_of_stages (calculate_number_of_stages (info input) axis)) in
  let* _ := modify_this (set_reduction_axis axis) in
  let* _ := modify_this
              (set_is_quantized (is_data_type_quantized (data_type (info input)))) in
  let* o := get_this in
  let* _ := modify_this
              (set_reduction_kernels_vector
                 (replicate (N.to_nat (_num_of_stages o)) None)) in
  if (axis =? 0) && negb (_is_quantized o) then
    let* _ := modify_this
                (set_border_handlers_vector
                   (replicate (N.to_nat (_num_of_stages o)) None)) in
    let* _ := modify_this
                (set_sums_vector
                   (replicate (N.to_nat (uint_sub (_num_of_stages o) 1))
                      CLTensor_default)) in
    let* _ :=
      for_range 0 (uint_sub (_num_of_stages o) 1) (configure_sums_body input)
        (tensor_shape (info input)) in
    let* p := sums_pointer 0 in
    let* _ := memory_group_manage p in
    let* (first_kernel_op, last_kernel_op) :=
      match op with
      | SUM | MEAN_SUM => ret (SUM, op)
      | SUM_SQUARE => ret (SUM_SQUARE, SUM)
      | _ => ARM_COMPUTE_ERROR "Not supported"
      end in
    let* p := sums_pointer 0 in
    let* _ := kernel_configure 0
                (mkKernelConfig InputTensor p axis first_kernel_op None) in
    let* b := kernel_border 0 in
    let* _ := border_configure 0 (mkBorderConfig InputTensor b CONSTANT 0) in
    let* _ :=
      for_range 1 (uint_sub (_num_of_stages o) 1) (configure_middle_body axis) tt in
    let last_stage := uint_sub (_num_of_stages o) 1 in
    let input_width := uint_of_size_t (dimension (info input) 0) in
    let* src := sums_pointer (Z.of_N last_stage - 1) in
    let* _ := kernel_configure last_stage
                (mkKernelConfig src OutputTensor axis last_kernel_op (Some input_width)) in
    let* src := sums_pointer (Z.of_N last_stage - 1) in
    let* b := kernel_border last_stage in
    let* _ := border_configure last_stage (mkBorderConfig src b CONSTANT 0) in
    sums_update (Z.of_N last_stage - 1) allocator_allocate
  else
    kernel_configure 0 (mkKernelConfig InputTensor OutputTensor axis op (Some 0)).

(** ** CLReductionOperation::run *)

(** [CLScheduler::get().enqueue(k, false)] on an element of one of the two
    kernel arrays. *)
Definition enqueue_border_handler (i : N) : M unit :=
  let* o := get_this in
  let* _ := at_offset (_border_handlers_vector o) (Z.of_N i) in
  emit (Enqueue (BorderHandler (N.to_nat i)) false).

Definition enqueue_reduction_kernel (i : N) : M unit :=
  let* o := get_this in
  let* _ := at_offset (_reduction_kernels_vector o) (Z.of_N i) in
  emit (Enqueue (ReductionKernel (N.to_nat i)) false).

(** The body of the loop of [run]. *)
Definition run_body (i : N) (_ : unit) : M unit :=
  let* _ := enqueue_border_handler i in
  enqueue_reduction_kernel i.

Definition run : M unit :=
  let* _ := emit MemoryGroupAcquire in
  let* o := get_this in
  let* _ :=
    if (_reduction_axis o =? 0) && negb (_is_quantized o) then
      for_range 0 (_num_of_stages o) run_body tt
    else
      enqueue_reduction_kernel 0 in
  emit MemoryGroupRelease.

(** ** What the specification says, in closed form

    The definitions of this part are not translations of the source: they
    state what the specification expects of [validate], [configure] and
    [run], to be compared with the embedding above. *)

(** One step of the chain of intermediate shapes (the spec's
    [intermediate_shape], with the quotient as the source computes it). *)
Definition reduce_shape (shape : TensorShape) : TensorShape :=
  shape_set0 (ceil_div_128f (shape_x shape)) shape.

(** The shapes of [count] successive intermediate buffers. *)
Fixpoint reduced_shapes (count : nat) (shape : TensorShape) : list TensorShape :=
  match count with
  | O => []
  | Datatypes.S count' => reduce_shape shape :: reduced_shapes count' (reduce_shape shape)
  end.

(** An intermediate descriptor: the given shape, the data type and the
    number of channels of the input. *)
Definition intermediate_info (input : TensorInfo) (shape : TensorShape) : TensorInfo :=
  mkTensorInfo shape (data_type input) (num_channels input).

Definition intermediate_infos (input : TensorInfo) (num_of_stages : N) : list TensorInfo :=
  map (intermediate_info input)
    (reduced_shapes (N.to_nat (uint_sub num_of_stages 1)) (tensor_shape input)).

(** A stage submitted to the kernel's validation. *)
Record StageRequest : Type := mkStageRequest {
  r_input : TensorInfo;
  r_output : TensorInfo;
  r_axis : N;
  r_op : ReductionOperation;
  r_width : option N }.

Definition request_event (r : StageRequest) : event :=
  KernelValidate (r_input r) (r_output r) (r_axis r) (r_op r) (r_width r).

Definition request_status (r : StageRequest) : Status :=
  kernel_validate (r_input r) (r_output r) (r_axis r) (r_op r) (r_width r).

(** The requests are checked in order and the first failure ends the
    check: the requests submitted, and the status returned. *)
Fixpoint check_requests (rs : list StageRequest) : list StageRequest * Status :=
  match rs with
  | [] => ([], Status_default)
  | r :: rs' =>
      if is_error (request_status r) then ([r], request_status r)
      else (r :: fst (check_requests rs'), snd (check_requests rs'))
  end.

(** The middle stages: from each intermediate buffer to the next, with SUM. *)
Fixpoint middle_requests (axis : N) (sums : list TensorInfo) : list StageRequest :=
  match sums with
  | a :: tl =>
      match tl with
      | b :: _ => mkStageRequest a b axis SUM None :: middle_requests axis tl
      | [] => []
      end
  | [] => []
  end.

(** The stages of the staged path over the intermediate buffers [sums]:
    input to the first buffer, the middle stages, last buffer to output
    with the width of the input as scalar. *)
Definition stage_requests (input output : TensorInfo) (axis : N)
  (first_op last_op : ReductionOperation) (sums : list TensorInfo) : list StageRequest :=
  match sums with
  | [] => []
  | s0 :: _ =>
      mkStageRequest input s0 axis first_op None
      :: middle_requests axis sums
      ++ [mkStageRequest (default s0 (last sums)) output axis last_op
            (Some (uint_of_size_t (dimension input 0)))]
  end.

(** The spec's OperationSelector: the kinds of the first and of the last
    stage, or nothing for a kind the staged path does not support. *)
Definition select_ops (op : ReductionOperation)
  : option (ReductionOperation * ReductionOperation) :=
  match op with
  | SUM => Some (SUM, SUM)
  | MEAN_SUM => Some (SUM, MEAN_SUM)
  | SUM_SQUARE => Some (SUM_SQUARE, SUM)
  | OTHER_KIND _ => None
  end.

(** The stages [validate] is expected to submit, if any. *)
Definition validate_plan (input output : TensorInfo) (axis : N) (op : ReductionOperation)
  : option (list StageRequest) :=
  if on_staged_path input axis then
    match select_ops op with
    | Some (first_op, last_op) =>
        Some (stage_requests input output axis first_op last_op
                (intermediate_infos input (calculate_number_of_stages input axis)))
    | None => None
    end
  else Some [mkStageRequest input output axis op None].

(** The world after the calls [es]. *)
Definition log (w : World) (es : list event) : World := mkWorld (this w) (trace w ++ es).

(** An intermediate tensor of [configure]: the descriptor of the input with
    the given shape. *)
Definition intermediate_tensor (input : CLTensor) (allocated : bool) (shape : TensorShape)
  : CLTensor :=
  mkCLTensor (set_tensor_shape shape (info input)) allocated.

Definition middle_kernel (axis : N) (i : nat) : KernelConfig :=
  mkKernelConfig (SumsTensor (i - 1)) (SumsTensor i) axis SUM None.

(** The kernels of an [n]-stage pipeline. *)
Definition staged_kernels (axis : N) (first_op last_op : ReductionOperation) (width : N)
  (n : nat) : list KernelConfig :=
  mkKernelConfig InputTensor (SumsTensor 0) axis first_op None
  :: map (middle_kernel axis) (seq 1 (n - 2))
  ++ [mkKernelConfig (SumsTensor (n - 2)) OutputTensor axis last_op (Some width)].

(** The border handler that goes with a kernel: it fills the border of the
    kernel's input, of the size the kernel asks for, with the constant 0. *)
Definition border_of (k : KernelConfig) : BorderConfig :=
  mkBorderConfig (k_input k) (kernel_border_size (Some k)) CONSTANT 0.

(** The function object after [configure] on the staged path with a
    supported kind. *)
Definition configure_staged_state (o : CLReductionOperation) (input : CLTensor) (axis : N)
  (first_op last_op : ReductionOperation) : CLReductionOperation :=
  let n := calculate_number_of_stages (info input) axis in
  let ks := staged_kernels axis first_op last_op
              (uint_of_size_t (dimension (info input) 0)) (N.to_nat n) in
  mkCLReductionOperation
    (_memory_group o ++ map SumsTensor (seq 0 (N.to_nat n - 1)))
    (map (intermediate_tensor input true)
       (reduced_shapes (N.to_nat n - 1) (tensor_shape (info input))))
    (map Some ks)
    (map (fun k => Some (border_of k)) ks)
    n axis false.

(** The function object where [configure] stops on a kind the staged path
    does not support. *)
Definition configure_unsupported_state (o : CLReductionOperation) (input : CLTensor)
  (axis : N) : CLReductionOperation :=
  let n := calculate_number_of_stages (info input) axis in
  mkCLReductionOperation
    (_memory_group o ++ [SumsTensor 0])
    (map (intermediate_tensor input false)
       (reduced_shapes (N.to_nat n - 1) (tensor_shape (info input))))
    (replicate (N.to_nat n) None)
    (replicate (N.to_nat n) None)
    n axis false.

(** The function object after [configure] off the staged path. *)
Definition configure_single_state (o : CLReductionOperation) (input : CLTensor)
  (axis : N) (op : ReductionOperation) : CLReductionOperation :=
  mkCLReductionOperation
    (_memory_group o) (_sums_vector o)
    [Some (mkKernelConfig InputTensor OutputTensor axis op (Some 0))]
    (_border_handlers_vector o)
    1 axis (is_data_type_quantized (data_type (info input))).

(** The two submissions of stage [i]. *)
Definition stage_submissions (i : nat) : list event :=
  [Enqueue (BorderHandler i) false; Enqueue (ReductionKernel i) false].

(** The calls [run] is expected to make on the function object [o]. *)
Definition run_trace (o : CLReductionOperation) : list event :=
  MemoryGroupAcquire
  :: (if (_reduction_axis o =? 0) && negb (_is_quantized o)
      then flat_map stage_submissions (seq 0 (N.to_nat (_num_of_stages o)))
      else [Enqueue (ReductionKernel 0) false])
  ++ [MemoryGroupRelease].

(** Kinds per stage: the first, [n - 2] middle stages, the last. *)
Definition stage_kinds (n : nat) (first_op last_op : ReductionOperation)
  : list ReductionOperation :=
  first_op :: replicate (n - 2) SUM ++ [last_op].

(** The descriptor a kernel argument points to, given the descriptors of
    the caller's tensors and of [_sums_vector]. *)
Definition resolve (input output : TensorInfo) (sums : list TensorInfo) (r : tensor_ref)
  : option TensorInfo :=
  match r with
  | InputTensor => Some input
  | OutputTensor => Some output
  | SumsTensor i => sums !! i
  end.

(** A stage: what it reads, what it writes, the kind it applies. *)
Definition Stage : Type := (TensorInfo * TensorInfo * ReductionOperation)%type.

Definition stage_of_request (r : StageRequest) : Stage := (r_input r, r_output r, r_op r).

Definition stage_of_kernel (input output : TensorInfo) (sums : list TensorInfo)
  (k : option KernelConfig) : option Stage :=
  match k with
  | Some c =>
      match resolve input output sums (k_input c), resolve input output sums (k_output c) with
      | Some a, Some b => Some (a, b, k_op c)
      | _, _ => None
      end
  | None => None
  end.

(** The stages of a configured function object, kernel by kernel. *)
Definition configured_stages (input output : CLTensor) (o : CLReductionOperation)
  : list (option Stage) :=
  map (stage_of_kernel (info input) (info output) (map info (_sums_vector o)))
    (_reduction_kernels_vector o).

Definition is_kernel_validate (e : event) : Prop :=
  match e with
  | KernelValidate _ _ _ _ _ => True
  | _ => False
  end.


(** A kernel validation whose request the kernel accepts. *)
Definition call_accepted (e : event) : Prop :=
  match e with
  | KernelValidate a b axis op width => is_error (kernel_validate a b axis op width) = false
  | _ => False
  end.


(** The function objects a caller can get hold of: a new one, and the ones
    left by [configure] (completed or not) and by [run] on such an object. *)
Inductive reachable : CLReductionOperation -> Prop :=
| reachable_new : reachable CLReductionOperation_new
| reachable_configure (o : CLReductionOperation) (input output : CLTensor) (axis : N)
    (op : ReductionOperation) (tr : list event) :
    reachable o ->
    reachable (this (fst (configure input output axis op (mkWorld o tr))))
| reachable_run (o : CLReductionOperation) (tr : list event) :
    reachable o ->
    reachable (this (fst (run (mkWorld o tr)))).

End Model.

(** ** A concrete platform, to run the model on *)

Inductive SampleDataType : Type := F32 | QASYMM8 | UNKNOWN.

Definition sample_types : DataTypes :=
  {| DataType := SampleDataType;
     DataType_UNKNOWN := UNKNOWN;
     is_data_type_quantized := fun dt => match dt with QASYMM8 => true | _ => false end |}.

(** Kernel validation that accepts every request; saturating conversion. *)
Definition sample_collaborators : @Collaborators sample_types :=
  {| kernel_validate := fun _ _ _ _ _ => Status_default;
     BorderSize := N;
     kernel_border_size := fun _ => 0;
     uint_of_float_overflow := fun _ => UINT_RANGE - 1 |}.

(** Kernel validation that rejects every request. *)
Definition rejecting_collaborators : @Collaborators sample_types :=
  {| kernel_validate := fun _ _ _ _ _ => mkStatus RUNTIME_ERROR "rejected";
     BorderSize := N;
     kernel_border_size := fun _ => 0;
     uint_of_float_overflow := fun _ => UINT_RANGE - 1 |}.

Definition sample_info (shape : TensorShape) (dt : SampleDataType) : @TensorInfo sample_types :=
  @mkTensorInfo sample_types shape dt 1.

Definition sample_tensor (shape : TensorShape) (dt : SampleDataType) : @CLTensor sample_types :=
  @mkCLTensor sample_types (sample_info shape dt) false.

Definition sample_world : @World sample_types sample_collaborators :=
  @mkWorld sample_types sample_collaborators
    (@CLReductionOperation_new sample_types sample_collaborators) [].

(** * Properties *)

Section Properties.
Context `{Collaborators}.

(** ** Machine arithmetic *)

Lemma UINT_RANGE_pos : 0 < UINT_RANGE.
Proof. reflexivity. Qed.

Lemma uint_sub_small (a b : N) : b <= a -> a < UINT_RANGE -> uint_sub a b = a - b.
Proof.
  intros Hb Ha. unfold uint_sub.
  rewrite (N.mod_small b) by lia.
  replace (a + UINT_RANGE - b) with ((a - b) + 1 * UINT_RANGE) by lia.
  rewrite N.Div0.mod_add. apply N.mod_small. lia.
Qed.

Lemma Z_to_nat_of_N (i : N) : Z.to_nat (Z.of_N i) = N.to_nat i.
Proof. lia. Qed.

(** The conversion to [float] at work: 16777217 and 16777219 lie halfway
    between two [float]s and go to the one with the even significand;
    33570689 goes to its nearest neighbour. *)
Example float_of_uint_rounds :
  float_of_uint 16777217 = 16777216 /\
  float_of_uint 16777219 = 16777220 /\
  float_of_uint 33570689 = 33570688 /\
  float_of_uint 4294967296 = 4294967296.
Proof. repeat split; reflexivity. Qed.

(** Up to [2^24] the conversion is exact. *)
Lemma float_of_uint_exact (d : N) : d <= 2 ^ 24 -> float_of_uint d = d.
Proof.
  intros Hd. destruct (N.eq_dec d (2 ^ 24)) as [->|Hne]; [reflexivity|].
  assert (Hlt : d < 2 ^ 24) by lia.
  unfold float_of_uint, FLT_MANT_DIG.
  assert (He : N.log2 d + 1 - 24 = 0).
  { destruct (N.eq_dec d 0) as [->|Hz]; [reflexivity|].
    assert (N.log2 d < 24) by (apply N.log2_lt_pow2; lia). lia. }
  rewrite He. change (2 ^ 0) with 1. rewrite N.mod_1_r, N.div_1_r.
  simpl. lia.
Qed.

(** ** The stage count *)

Lemma uint_of_float_lt (x : N) : uint_of_float x < UINT_RANGE.
Proof.
  unfold uint_of_float. destruct (x <? UINT_RANGE) eqn:E.
  - apply N.ltb_lt in E. exact E.
  - apply N.mod_lt. discriminate.
Qed.

Lemma on_staged_path_spec (input : TensorInfo) (axis : N) :
  on_staged_path input axis = true <->
  axis = 0 /\ is_data_type_quantized (data_type input) = false.
Proof.
  unfold on_staged_path. rewrite andb_true_iff, N.eqb_eq, negb_true_iff. tauto.
Qed.

Lemma stages_not_staged (input : TensorInfo) (axis : N) :
  on_staged_path input axis = false -> calculate_number_of_stages input axis = 1.
Proof.
  unfold on_staged_path, calculate_number_of_stages.
  destruct (axis =? 0), (is_data_type_quantized (data_type input)); simpl; congruence.
Qed.

Lemma stages_staged (input : TensorInfo) (axis : N) :
  on_staged_path input axis = true ->
  calculate_number_of_stages input axis =
    uint_of_float (ceil_div_128f (dimension input 0)) / 128 + 2.
Proof.
  unfold on_staged_path, calculate_number_of_stages.
  destruct (axis =? 0), (is_data_type_quantized (data_type input)); simpl; try congruence.
  intros _. unfold uint_add.
  pose proof (uint_of_float_lt (ceil_div_128f (dimension input 0))) as Hlt.
  apply N.mod_small.
  change UINT_RANGE with (128 * 33554432) in Hlt.
  apply N.Div0.div_lt_upper_bound in Hlt.
  change UINT_RANGE with 4294967296. lia.
Qed.

Lemma stages_staged_bounds (input : TensorInfo) (axis : N) :
  on_staged_path input axis = true ->
  2 <= calculate_number_of_stages input axis < UINT_RANGE.
Proof.
  intros Hs. rewrite (stages_staged _ _ Hs).
  pose proof (uint_of_float_lt (ceil_div_128f (dimension input 0))) as Hlt.
  change UINT_RANGE with (128 * 33554432) in Hlt.
  apply N.Div0.div_lt_upper_bound in Hlt.
  change UINT_RANGE with 4294967296. split; [ apply N.le_add_l | lia ].
Qed.

(** ** Running the monad *)

Lemma bind_Ret {A B : Type} (m : M A) (k : A -> M B) (w w' : World) (a : A) :
  m w = (w', Ret a) -> bind m k w = k a w'.
Proof. intros E. unfold bind. rewrite E. reflexivity. Qed.

Lemma at_offset_Some {A : Type} (a : list A) (off : Z) (x : A) (w : World) :
  (0 <= off)%Z -> a !! Z.to_nat off = Some x -> at_offset a off w = (w, Ret x).
Proof.
  intros Hoff Hx. unfold at_offset.
  destruct (off <? 0)%Z eqn:E; [apply Z.ltb_lt in E; lia|].
  rewrite Hx. reflexivity.
Qed.

Lemma update_at_Some {A : Type} (a : list A) (off : Z) (f : A -> A) (x : A) (w : World) :
  (0 <= off)%Z -> a !! Z.to_nat off = Some x ->
  update_at a off f w = (w, Ret (<[Z.to_nat off := f x]> a)).
Proof.
  intros Hoff Hx. unfold update_at.
  rewrite (bind_Ret _ _ _ _ _ (at_offset_Some a off x w Hoff Hx)). reflexivity.
Qed.

(** Writing the cell that follows [done] in [done ++ x :: rest]. *)
Lemma update_at_middle {A : Type} (done rest : list A) (x : A) (i : N) (f : A -> A)
  (w : World) :
  length done = N.to_nat i ->
  update_at (done ++ x :: rest) (Z.of_N i) f w = (w, Ret (done ++ f x :: rest)).
Proof.
  intros Hlen.
  assert (Hi : Z.to_nat (Z.of_N i) = length done) by lia.
  rewrite (update_at_Some _ _ f x).
  - rewrite Hi. rewrite insert_app_r_alt by lia.
    replace (length done - length done)%nat with 0%nat by lia. reflexivity.
  - lia.
  - rewrite Hi. rewrite lookup_app_r by lia.
    replace (length done - length done)%nat with 0%nat by lia. reflexivity.
Qed.

Lemma for_loop_S {S : Type} (count : nat) (i : N) (body : N -> S -> M S) (s s' : S)
  (w w' : World) :
  body i s w = (w', Ret s') ->
  for_loop (Datatypes.S count) i body s w = for_loop count (i + 1) body s' w'.
Proof. intros E. simpl. apply bind_Ret. exact E. Qed.

(** ** Running [validate] *)

Lemma length_reduced_shapes (count : nat) (shape : TensorShape) :
  length (reduced_shapes count shape) = count.
Proof. revert shape. induction count as [|c IH]; intros shape; simpl; [|rewrite IH]; reflexivity. Qed.

Lemma validate_sums_loop (input : TensorInfo) (count : nat) :
  forall (i : N) (shape : TensorShape) (done rest : list TensorInfo) (w : World),
    length done = N.to_nat i -> length rest = count ->
    exists shape',
      for_loop count i (validate_sums_body input) (shape, done ++ rest) w =
      (w, Ret (shape', done ++ map (intermediate_info input) (reduced_shapes count shape))).
Proof.
  induction count as [|c IH]; intros i shape done rest w Hdone Hrest.
  - destruct rest; [|discriminate]. exists shape. reflexivity.
  - destruct rest as [|x rest]; [discriminate|]. injection Hrest as Hrest.
    destruct (IH (i + 1) (reduce_shape shape)
                (done ++ [intermediate_info input (reduce_shape shape)]) rest w)
      as [shape' E].
    { rewrite length_app. simpl. lia. }
    { exact Hrest. }
    exists shape'.
    rewrite (for_loop_S c i _ _ (reduce_shape shape,
               done ++ intermediate_info input (reduce_shape shape) :: rest) w w).
    + rewrite <- app_assoc in E. simpl in E. simpl. rewrite E.
      rewrite <- app_assoc. reflexivity.
    + unfold validate_sums_body. simpl fst. simpl snd.
      rewrite (bind_Ret _ _ w w _ (update_at_middle done rest x i _ w Hdone)).
      rewrite (bind_Ret _ _ w w _ (update_at_middle done rest _ i _ w Hdone)).
      rewrite (bind_Ret _ _ w w _ (update_at_middle done rest _ i _ w Hdone)).
      reflexivity.
Qed.

Lemma validate_sums_vector_eq (input : TensorInfo) (n : N) (w : World) :
  validate_sums_vector input n w = (w, Ret (intermediate_infos input n)).
Proof.
  unfold validate_sums_vector, for_range.
  destruct (validate_sums_loop input (N.to_nat (uint_sub n 1 - 0)) 0 (tensor_shape input) []
              (replicate (N.to_nat (uint_sub n 1)) TensorInfo_default) w) as [shape' E].
  { reflexivity. }
  { rewrite length_replicate. lia. }
  simpl app in E. rewrite (bind_Ret _ _ _ _ _ E). simpl.
  unfold intermediate_infos. rewrite N.sub_0_r. reflexivity.
Qed.

Lemma log_nil (w : World) : log w [] = w.
Proof. destruct w. unfold log. simpl. rewrite app_nil_r. reflexivity. Qed.

Lemma log_log (w : World) (es es' : list event) : log (log w es) es' = log w (es ++ es').
Proof. unfold log. simpl. rewrite app_assoc. reflexivity. Qed.

Lemma kernel_validate_run (a b : TensorInfo) (axis : N) (op : ReductionOperation)
  (width : option N) (w : World) :
  CLReductionOperationKernel_validate a b axis op width w =
  (log w [KernelValidate a b axis op width], Ret (kernel_validate a b axis op width)).
Proof. reflexivity. Qed.

Lemma validate_middle_loop (axis : N) (count : nat) :
  forall (i : N) (pre rest : list TensorInfo) (w : World),
    (length pre + 1)%nat = N.to_nat i -> length rest = Datatypes.S count ->
    for_loop count i (validate_middle_body (pre ++ rest) axis) tt w =
    (log w (map request_event (fst (check_requests (middle_requests axis rest)))),
     if is_error (snd (check_requests (middle_requests axis rest)))
     then Returned (snd (check_requests (middle_requests axis rest)))
     else Ret tt).
Proof.
  induction count as [|c IH]; intros i pre rest w Hpre Hrest.
  - destruct rest as [|a [|b rest]]; try discriminate.
    simpl. rewrite log_nil. reflexivity.
  - destruct rest as [|a [|b rest]]; try discriminate.
    simpl in Hrest. injection Hrest as Hrest.
    assert (Ha : (pre ++ a :: b :: rest) !! Z.to_nat (Z.of_N i - 1) = Some a).
    { replace (Z.to_nat (Z.of_N i - 1)) with (length pre) by lia.
      rewrite lookup_app_r by lia. rewrite Nat.sub_diag. reflexivity. }
    assert (Hb : (pre ++ a :: b :: rest) !! Z.to_nat (Z.of_N i) = Some b).
    { replace (Z.to_nat (Z.of_N i)) with (Datatypes.S (length pre)) by lia.
      rewrite lookup_app_r by lia.
      replace (Datatypes.S (length pre) - length pre)%nat with 1%nat by lia. reflexivity. }
    change (middle_requests axis (a :: b :: rest))
      with (mkStageRequest a b axis SUM None :: middle_requests axis (b :: rest)).
    cbn [check_requests].
    change (request_status (mkStageRequest a b axis SUM None))
      with (kernel_validate a b axis SUM None).
    assert (Hbody : validate_middle_body (pre ++ a :: b :: rest) axis i tt w =
                    (log w [KernelValidate a b axis SUM None],
                     if is_error (kernel_validate a b axis SUM None)
                     then Returned (kernel_validate a b axis SUM None) else Ret tt)).
    { unfold validate_middle_body.
      rewrite (bind_Ret _ _ w w a) by (apply at_offset_Some; [lia | exact Ha]).
      rewrite (bind_Ret _ _ w w b) by (apply at_offset_Some; [lia | exact Hb]).
      rewrite (bind_Ret _ _ _ _ _ (kernel_validate_run a b axis SUM None w)).
      unfold ARM_COMPUTE_RETURN_ON_ERROR.
      destruct (is_error (kernel_validate a b axis SUM None)); reflexivity. }
    cbn [for_loop]. unfold bind at 1. rewrite Hbody.
    destruct (is_error (kernel_validate a b axis SUM None)) eqn:Eerr.
    + cbn [fst snd]. rewrite Eerr. reflexivity.
    + replace (pre ++ a :: b :: rest) with ((pre ++ [a]) ++ b :: rest)
        by (rewrite <- app_assoc; reflexivity).
      rewrite IH.
      * cbn [fst snd map]. rewrite log_log. reflexivity.
      * rewrite length_app. simpl. lia.
      * simpl. rewrite Hrest. reflexivity.
Qed.

Lemma length_intermediate_infos (input : TensorInfo) (n : N) :
  length (intermediate_infos input n) = N.to_nat (uint_sub n 1).
Proof. unfold intermediate_infos. rewrite length_map. apply length_reduced_shapes. Qed.

Lemma staged_sub_1 (input : TensorInfo) (axis : N) :
  on_staged_path input axis = true ->
  uint_sub (calculate_number_of_stages input axis) 1 =
  calculate_number_of_stages input axis - 1.
Proof.
  intros Hs. pose proof (stages_staged_bounds input axis Hs) as [Hlo Hhi].
  apply uint_sub_small; lia.
Qed.

Lemma check_requests_app (rs rs' : list StageRequest) :
  check_requests (rs ++ rs') =
  if is_error (snd (check_requests rs)) then check_requests rs
  else (fst (check_requests rs) ++ fst (check_requests rs'), snd (check_requests rs')).
Proof.
  induction rs as [|r rs IH].
  - simpl. destruct (check_requests rs'); reflexivity.
  - simpl. destruct (is_error (request_status r)) eqn:E.
    + simpl. rewrite E. reflexivity.
    + simpl. rewrite IH.
      destruct (is_error (snd (check_requests rs))); reflexivity.
Qed.

Lemma request_status_mk (a b : TensorInfo) (axis : N) (op : ReductionOperation)
  (width : option N) :
  request_status (mkStageRequest a b axis op width) = kernel_validate a b axis op width.
Proof. reflexivity. Qed.

Lemma validate_run (input output : TensorInfo) (axis : N) (op : ReductionOperation)
  (w : World) :
  validate input output axis op w =
  match validate_plan input output axis op with
  | Some rs =>
      (log w (map request_event (fst (check_requests rs))), Ret (snd (check_requests rs)))
  | None => (w, Fatal "Not supported")
  end.
Proof.
  unfold validate, validate_plan, function_body.
  change ((axis =? 0) && negb (is_data_type_quantized (data_type input)))
    with (on_staged_path input axis).
  destruct (on_staged_path input axis) eqn:Hs.
  - set (n := calculate_number_of_stages input axis).
    rewrite (bind_Ret _ _ _ _ _ (validate_sums_vector_eq input n w)).
    pose proof (length_intermediate_infos input n) as Hlen.
    pose proof (stages_staged_bounds input axis Hs) as [Hlo Hhi]. fold n in Hlo, Hhi.
    pose proof (staged_sub_1 input axis Hs) as Hsub. fold n in Hsub.
    rewrite Hsub in Hlen |- *.
    destruct (intermediate_infos input n) as [|s0 sums] eqn:Esums;
      [simpl in Hlen; lia|].
    assert (Hl : (s0 :: sums) !! Z.to_nat (Z.of_N (n - 1) - 1) =
                 Some (default s0 (last (s0 :: sums)))).
    { rewrite last_lookup. simpl length. simpl Init.Nat.pred.
      replace (Z.to_nat (Z.of_N (n - 1) - 1)) with (length sums) by (simpl in Hlen; lia).
      destruct ((s0 :: sums) !! length sums) eqn:El; [reflexivity|].
      apply lookup_ge_None in El. simpl in El. lia. }
    destruct op as [| | |id]; [| | |reflexivity].
    all: unfold bind at 1; unfold ret at 1.
    all: rewrite (bind_Ret _ _ w w s0) by (apply at_offset_Some; [lia | reflexivity]).
    all: rewrite (bind_Ret _ _ _ _ _ (kernel_validate_run input s0 axis _ None w)).
    all: unfold select_ops, stage_requests; cbn [check_requests].
    all: rewrite request_status_mk.
    all: unfold ARM_COMPUTE_RETURN_ON_ERROR at 1.
    all: destruct (is_error (kernel_validate _ _ _ _ _)) eqn:E0; [reflexivity|].
    all: unfold bind at 1; unfold ret at 1.
    all: unfold for_range; unfold bind at 1.
    all: rewrite (validate_middle_loop axis (N.to_nat (n - 1 - 1)) 1 [] (s0 :: sums) _ eq_refl)
           by (simpl; simpl in Hlen; lia).
    all: rewrite check_requests_app.
    all: destruct (is_error (snd (check_requests (middle_requests axis (s0 :: sums)))))
           eqn:Em; [cbn [fst snd map]; rewrite log_log; reflexivity|].
    all: rewrite (bind_Ret _ _ _ _ (default s0 (last (s0 :: sums))))
           by (apply at_offset_Some; [lia | exact Hl]).
    all: rewrite (bind_Ret _ _ _ _ _ (kernel_validate_run _ _ _ _ _ _)).
    all: cbn [check_requests fst snd]; rewrite request_status_mk.
    all: unfold ARM_COMPUTE_RETURN_ON_ERROR.
    all: destruct (is_error (kernel_validate _ _ _ _ (Some _))) eqn:El2.
    all: unfold bind, return_status, ret; cbn [fst snd map]; rewrite !log_log;
         rewrite map_app, ?app_nil_r; reflexivity.
  - rewrite (bind_Ret _ _ _ _ _ (kernel_validate_run input output axis op None w)).
    cbn [check_requests].
    rewrite request_status_mk.
    unfold ARM_COMPUTE_RETURN_ON_ERROR.
    destruct (is_error (kernel_validate input output axis op None)); reflexivity.
Qed.

(** ** Running [configure] *)

Lemma sums_pointer_run mg sv kv bv n ax q tr (off : Z) (x : CLTensor) :
  (0 <= off)%Z -> sv !! Z.to_nat off = Some x ->
  sums_pointer off (mkWorld (mkCLReductionOperation mg sv kv bv n ax q) tr) =
  (mkWorld (mkCLReductionOperation mg sv kv bv n ax q) tr, Ret (SumsTensor (Z.to_nat off))).
Proof.
  intros Hoff Hx. unfold sums_pointer.
  unfold bind at 1. unfold get_this. cbn [this _sums_vector].
  rewrite (bind_Ret _ _ _ _ x) by (apply at_offset_Some; assumption).
  reflexivity.
Qed.

Lemma sums_update_run mg sv kv bv n ax q tr (off : Z) (f : CLTensor -> CLTensor)
  (x : CLTensor) :
  (0 <= off)%Z -> sv !! Z.to_nat off = Some x ->
  sums_update off f (mkWorld (mkCLReductionOperation mg sv kv bv n ax q) tr) =
  (mkWorld (mkCLReductionOperation mg (<[Z.to_nat off := f x]> sv) kv bv n ax q) tr, Ret tt).
Proof.
  intros Hoff Hx. unfold sums_update.
  unfold bind at 1. unfold get_this. cbn [this _sums_vector].
  rewrite (bind_Ret _ _ _ _ _ (update_at_Some sv off f x _ Hoff Hx)).
  reflexivity.
Qed.

Lemma kernel_configure_run mg sv kv bv n ax q tr (i : N) (c : KernelConfig)
  (k : option KernelConfig) :
  kv !! N.to_nat i = Some k ->
  kernel_configure i c (mkWorld (mkCLReductionOperation mg sv kv bv n ax q) tr) =
  (mkWorld (mkCLReductionOperation mg sv (<[N.to_nat i := Some c]> kv) bv n ax q) tr, Ret tt).
Proof.
  intros Hk. unfold kernel_configure.
  unfold bind at 1. unfold get_this. cbn [this _reduction_kernels_vector].
  rewrite (bind_Ret _ _ _ _ _ (update_at_Some kv (Z.of_N i) _ k _ ltac:(lia)
             ltac:(rewrite Z_to_nat_of_N; exact Hk))).
  rewrite Z_to_nat_of_N. reflexivity.
Qed.

Lemma border_configure_run mg sv kv bv n ax q tr (i : N) (c : BorderConfig)
  (b : option BorderConfig) :
  bv !! N.to_nat i = Some b ->
  border_configure i c (mkWorld (mkCLReductionOperation mg sv kv bv n ax q) tr) =
  (mkWorld (mkCLReductionOperation mg sv kv (<[N.to_nat i := Some c]> bv) n ax q) tr, Ret tt).
Proof.
  intros Hb. unfold border_configure.
  unfold bind at 1. unfold get_this. cbn [this _border_handlers_vector].
  rewrite (bind_Ret _ _ _ _ _ (update_at_Some bv (Z.of_N i) _ b _ ltac:(lia)
             ltac:(rewrite Z_to_nat_of_N; exact Hb))).
  rewrite Z_to_nat_of_N. reflexivity.
Qed.

Lemma kernel_border_run mg sv kv bv n ax q tr (i : N) (k : option KernelConfig) :
  kv !! N.to_nat i = Some k ->
  kernel_border i (mkWorld (mkCLReductionOperation mg sv kv bv n ax q) tr) =
  (mkWorld (mkCLReductionOperation mg sv kv bv n ax q) tr, Ret (kernel_border_size k)).
Proof.
  intros Hk. unfold kernel_border.
  unfold bind at 1. unfold get_this. cbn [this _reduction_kernels_vector].
  rewrite (bind_Ret _ _ _ _ k)
    by (apply at_offset_Some; [lia | rewrite Z_to_nat_of_N; exact Hk]).
  reflexivity.
Qed.

Lemma memory_group_manage_run mg sv kv bv n ax q tr (p : tensor_ref) :
  memory_group_manage p (mkWorld (mkCLReductionOperation mg sv kv bv n ax q) tr) =
  (mkWorld (mkCLReductionOperation (mg ++ [p]) sv kv bv n ax q) tr, Ret tt).
Proof. reflexivity. Qed.

Lemma configure_sums_loop (input : CLTensor) (count : nat) :
  forall (i : N) (shape : TensorShape) (sdone : list CLTensor) mg kv bv n ax q tr,
    length sdone = N.to_nat i ->
    exists shape',
      for_loop count i (configure_sums_body input) shape
        (mkWorld (mkCLReductionOperation mg (sdone ++ replicate count CLTensor_default)
                    kv bv n ax q) tr) =
      (mkWorld (mkCLReductionOperation mg
                  (sdone ++ map (intermediate_tensor input false) (reduced_shapes count shape))
                  kv bv n ax q) tr,
       Ret shape').
Proof.
  induction count as [|c IH]; intros i shape sdone mg kv bv n ax q tr Hdone.
  - exists shape. reflexivity.
  - destruct (IH (i + 1) (reduce_shape shape)
                (sdone ++ [intermediate_tensor input false (reduce_shape shape)])
                mg kv bv n ax q tr) as [shape' E].
    { rewrite length_app. simpl. lia. }
    exists shape'.
    cbn [for_loop replicate reduced_shapes map].
    assert (Hx : (sdone ++ CLTensor_default :: replicate c CLTensor_default)
                   !! Z.to_nat (Z.of_N i) = Some CLTensor_default).
    { rewrite Z_to_nat_of_N, lookup_app_r by lia.
      replace (N.to_nat i - length sdone)%nat with 0%nat by lia. reflexivity. }
    unfold bind at 1. unfold configure_sums_body at 1.
    rewrite (bind_Ret _ _ _ _ _
               (sums_update_run mg _ kv bv n ax q tr (Z.of_N i) _ CLTensor_default
                  ltac:(lia) Hx)).
    unfold ret at 1.
    rewrite Z_to_nat_of_N, insert_app_r_alt by lia.
    replace (N.to_nat i - length sdone)%nat with 0%nat by lia.
    cbn [insert list_insert].
    rewrite <- !app_assoc in E. cbn [app] in E. exact E.
Qed.

Lemma configure_middle_loop (axis : N) (count : nat) :
  forall (i : N) mg (sdone srest : list CLTensor)
         (kdone : list (option KernelConfig)) (bdone : list (option BorderConfig))
         n ax q tr,
    (length sdone + 1)%nat = N.to_nat i -> length srest = Datatypes.S count ->
    length kdone = N.to_nat i -> length bdone = N.to_nat i ->
    for_loop count i (configure_middle_body axis) tt
      (mkWorld (mkCLReductionOperation mg (sdone ++ srest)
                  (kdone ++ replicate (Datatypes.S count) None)
                  (bdone ++ replicate (Datatypes.S count) None) n ax q) tr) =
    (mkWorld (mkCLReductionOperation
                (mg ++ map SumsTensor (seq (N.to_nat i) count))
                (sdone ++ map allocator_allocate (take count srest) ++ drop count srest)
                (kdone ++ map (fun j => Some (middle_kernel axis j)) (seq (N.to_nat i) count)
                   ++ [None])
                (bdone ++ map (fun j => Some (border_of (middle_kernel axis j)))
                           (seq (N.to_nat i) count) ++ [None])
                n ax q) tr,
     Ret tt).
Proof.
  induction count as [|c IH];
    intros i mg sdone srest kdone bdone n ax q tr Hs Hrest Hk Hb.
  - simpl. rewrite app_nil_r. reflexivity.
  - destruct srest as [|x [|y srest]]; try discriminate.
    simpl in Hrest. injection Hrest as Hrest.
    assert (Hx : (sdone ++ x :: y :: srest) !! Z.to_nat (Z.of_N i - 1) = Some x).
    { replace (Z.to_nat (Z.of_N i - 1)) with (length sdone) by lia.
      rewrite lookup_app_r by lia. rewrite Nat.sub_diag. reflexivity. }
    assert (Hy : (sdone ++ x :: y :: srest) !! Z.to_nat (Z.of_N i) = Some y).
    { replace (Z.to_nat (Z.of_N i)) with (Datatypes.S (length sdone)) by lia.
      rewrite lookup_app_r by lia.
      replace (Datatypes.S (length sdone) - length sdone)%nat with 1%nat by lia. reflexivity. }
    assert (Hi0 : (0 <= Z.of_N i)%Z) by lia.
    assert (Hi1 : (0 <= Z.of_N i - 1)%Z) by lia.
    cbn [for_loop]. unfold bind at 1. unfold configure_middle_body at 1.
    rewrite (bind_Ret _ _ _ _ _ (sums_pointer_run _ _ _ _ _ _ _ _ _ y Hi0 Hy)).
    rewrite (bind_Ret _ _ _ _ _ (memory_group_manage_run _ _ _ _ _ _ _ _ _)).
    rewrite (bind_Ret _ _ _ _ _ (sums_pointer_run _ _ _ _ _ _ _ _ _ x Hi1 Hx)).
    rewrite (bind_Ret _ _ _ _ _ (sums_pointer_run _ _ _ _ _ _ _ _ _ y Hi0 Hy)).
    assert (Hkl : forall A (done : list (option A)) m,
               length done = N.to_nat i ->
               (done ++ replicate (Datatypes.S m) None) !! N.to_nat i = Some None).
    { intros A done m Hd. rewrite lookup_app_r by lia.
      replace (N.to_nat i - length done)%nat with 0%nat by lia. reflexivity. }
    assert (Hki : forall A (done : list (option A)) m v,
               length done = N.to_nat i ->
               <[N.to_nat i := v]> (done ++ replicate (Datatypes.S m) None) =
               (done ++ [v]) ++ replicate m None).
    { intros A done m v Hd. rewrite insert_app_r_alt by lia.
      replace (N.to_nat i - length done)%nat with 0%nat by lia.
      rewrite <- app_assoc. reflexivity. }
    rewrite (bind_Ret _ _ _ _ _ (kernel_configure_run _ _ _ _ _ _ _ _ i _ None
               (Hkl _ kdone _ Hk))).
    rewrite (bind_Ret _ _ _ _ _ (sums_pointer_run _ _ _ _ _ _ _ _ _ x Hi1 Hx)).
    rewrite Hki by exact Hk.
    assert (Hkb : forall v : option KernelConfig,
               ((kdone ++ [v]) ++ replicate (Datatypes.S c) None) !! N.to_nat i = Some v).
    { intros v. rewrite lookup_app_l by (rewrite length_app; simpl; lia).
      rewrite lookup_app_r by lia.
      replace (N.to_nat i - length kdone)%nat with 0%nat by lia. reflexivity. }
    rewrite (bind_Ret _ _ _ _ _ (kernel_border_run _ _ _ _ _ _ _ _ i _ (Hkb _))).
    rewrite (bind_Ret _ _ _ _ _ (border_configure_run _ _ _ _ _ _ _ _ i _ None
               (Hkl _ bdone _ Hb))).
    rewrite Hki by exact Hb.
    rewrite (sums_update_run _ _ _ _ _ _ _ _ _ _ x Hi1 Hx).
    replace (Z.to_nat (Z.of_N i - 1)) with (length sdone) by lia.
    rewrite insert_app_r_alt by lia. rewrite Nat.sub_diag. cbn [insert list_insert].
    replace (sdone ++ allocator_allocate x :: y :: srest)
      with ((sdone ++ [allocator_allocate x]) ++ y :: srest)
      by (rewrite <- app_assoc; reflexivity).
    rewrite (IH (i + 1)).
    + replace (N.to_nat (i + 1)) with (Datatypes.S (N.to_nat i)) by lia.
      replace (Z.to_nat (Z.of_N i)) with (N.to_nat i) by lia.
      cbn [seq map take drop]. rewrite <- !app_assoc. cbn [app].
      unfold middle_kernel at 2 4.
      replace (length sdone) with (N.to_nat i - 1)%nat by lia.
      reflexivity.
    + rewrite length_app. simpl. lia.
    + simpl. rewrite Hrest. reflexivity.
    + rewrite length_app. simpl. lia.
    + rewrite length_app. simpl. lia.
Qed.

Lemma modify_this_run (f : CLReductionOperation -> CLReductionOperation)
  (o : CLReductionOperation) (tr : list event) :
  modify_this f (mkWorld o tr) = (mkWorld (f o) tr, Ret tt).
Proof. reflexivity. Qed.

Lemma get_this_run (o : CLReductionOperation) (tr : list event) :
  get_this (mkWorld o tr) = (mkWorld o tr, Ret o).
Proof. reflexivity. Qed.

(** One step of a sequence: run the first computation, go on with the rest. *)
Lemma bind_step {A B : Type} (m : M A) (k : A -> M B) (w w' : World) (a : A)
  (r : World * result B) :
  m w = (w', Ret a) -> k a w' = r -> bind m k w = r.
Proof. intros E <-. apply bind_Ret. exact E. Qed.

Ltac run_bind tac := eapply bind_step; [tac|].

Lemma configure_run (input output : CLTensor) (axis : N) (op : ReductionOperation)
  (w : World) :
  configure input output axis op w =
  if on_staged_path (info input) axis then
    match select_ops op with
    | Some (first_op, last_op) =>
        (mkWorld (configure_staged_state (this w) input axis first_op last_op) (trace w),
         Ret tt)
    | None =>
        (mkWorld (configure_unsupported_state (this w) input axis) (trace w),
         Fatal "Not supported")
    end
  else (mkWorld (configure_single_state (this w) input axis op) (trace w), Ret tt).
Proof.
  destruct w as [[mg sv kv bv n0 ax0 q0] tr].
  destruct (on_staged_path (info input) axis) eqn:Hs.
  - pose proof (stages_staged_bounds _ _ Hs) as [Hlo Hhi].
    pose proof (staged_sub_1 _ _ Hs) as Hsub.
    apply on_staged_path_spec in Hs as [-> Hq].
    unfold configure, configure_staged_state, configure_unsupported_state.
    set (n := calculate_number_of_stages (info input) 0) in *.
    assert (Hm : exists m', N.to_nat n = Datatypes.S (Datatypes.S m')).
    { exists (N.to_nat n - 2)%nat. lia. }
    destruct Hm as [m' Hm].
    do 3 (eapply bind_step; [apply modify_this_run|]).
    run_bind ltac:(apply get_this_run).
    cbn [set_num_of_stages set_reduction_axis set_is_quantized
         _memory_group _sums_vector _reduction_kernels_vector
         _border_handlers_vector _num_of_stages _reduction_axis _is_quantized this trace].
    rewrite Hq. cbn [N.eqb negb andb]. rewrite Hsub.
    do 3 (eapply bind_step; [apply modify_this_run|]).
    cbn [set_reduction_kernels_vector set_border_handlers_vector set_sums_vector
         _memory_group _sums_vector _reduction_kernels_vector
         _border_handlers_vector _num_of_stages _reduction_axis _is_quantized].
    unfold for_range.
    replace (N.to_nat (n - 1 - 0)) with (Datatypes.S m') by lia.
    replace (N.to_nat (n - 1 - 1)) with m' by lia.
    replace (N.to_nat (n - 1)) with (Datatypes.S m') by lia.
    replace (N.to_nat n - 1)%nat with (Datatypes.S m') by lia.
    rewrite Hm.
    destruct (configure_sums_loop input (Datatypes.S m') 0 (tensor_shape (info input)) []
                mg (replicate (Datatypes.S (Datatypes.S m')) None)
                (replicate (Datatypes.S (Datatypes.S m')) None) n 0 false tr eq_refl)
      as [shape' E].
    run_bind ltac:(exact E). clear E.
    cbn [reduced_shapes map app].
    set (sh0 := reduce_shape (tensor_shape (info input))).
    set (rest := map (intermediate_tensor input false) (reduced_shapes m' sh0)).
    set (t0 := intermediate_tensor input false sh0).
    assert (Hlen : length (t0 :: rest) = Datatypes.S m').
    { subst rest. simpl. rewrite length_map, length_reduced_shapes. reflexivity. }
    run_bind ltac:(eapply sums_pointer_run; [lia | reflexivity]).
    run_bind ltac:(apply memory_group_manage_run).
    change (Z.to_nat 0) with 0%nat.
    destruct (select_ops op) as [[first_op last_op]|] eqn:Esel.
    2:{ destruct op; try discriminate. reflexivity. }
    assert (Hops : match op with
                   | SUM_SQUARE => ret (SUM_SQUARE, SUM)
                   | OTHER_KIND _ => ARM_COMPUTE_ERROR "Not supported"
                   | _ => ret (SUM, op)
                   end = (ret (first_op, last_op) : M _)).
    { destruct op; simpl in Esel; try discriminate; injection Esel as <- <-; reflexivity. }
    rewrite Hops. clear Hops.
    run_bind ltac:(reflexivity). cbv beta iota.
    run_bind ltac:(eapply sums_pointer_run; [lia | reflexivity]).
    change (Z.to_nat 0) with 0%nat.
    set (k0 := mkKernelConfig InputTensor (SumsTensor 0) 0 first_op None).
    run_bind ltac:(eapply kernel_configure_run; reflexivity).
    run_bind ltac:(eapply kernel_border_run; reflexivity).
    run_bind ltac:(eapply border_configure_run; reflexivity).
    change (N.to_nat 0) with 0%nat. cbn [replicate insert list_insert].
    eapply bind_step.
    { apply (configure_middle_loop 0 m' 1 _ [] (t0 :: rest) [Some k0]
               [Some (mkBorderConfig InputTensor (kernel_border_size (Some k0)) CONSTANT 0)]
               n 0 false tr eq_refl Hlen eq_refl eq_refl). }
    change (N.to_nat 1) with 1%nat. cbn [app].
    assert (Hdrop : exists xl, drop m' (t0 :: rest) = [xl]).
    { pose proof (length_drop (t0 :: rest) m') as Hd. rewrite Hlen in Hd.
      destruct (drop m' (t0 :: rest)) as [|xl [|? ?]]; simpl in Hd; try lia.
      exists xl. reflexivity. }
    destruct Hdrop as [xl Hdrop]. rewrite Hdrop.
    assert (Htake : length (map allocator_allocate (take m' (t0 :: rest))) = m').
    { rewrite length_map, length_take. lia. }
    assert (Hidx : Z.to_nat (Z.of_N (n - 1) - 1) = m') by lia.
    assert (Hpos : (0 <= Z.of_N (n - 1) - 1)%Z) by lia.
    assert (Hxl : (map allocator_allocate (take m' (t0 :: rest)) ++ [xl])
                    !! Z.to_nat (Z.of_N (n - 1) - 1) = Some xl).
    { rewrite Hidx. rewrite lookup_app_r by lia. rewrite Htake, Nat.sub_diag. reflexivity. }
    assert (Hlast : forall A (x0 : option A) (l : list (option A)),
               length l = m' ->
               (x0 :: l ++ [None]) !! N.to_nat (n - 1) = Some None).
    { intros A x0 l Hl. replace (N.to_nat (n - 1)) with (Datatypes.S (length l)) by lia.
      simpl. rewrite lookup_app_r by lia. rewrite Nat.sub_diag. reflexivity. }
    assert (Hins : forall A (x0 : option A) (l : list (option A)) v,
               length l = m' ->
               <[N.to_nat (n - 1) := v]> (x0 :: l ++ [None]) = x0 :: l ++ [v]).
    { intros A x0 l v Hl. replace (N.to_nat (n - 1)) with (Datatypes.S (length l)) by lia.
      simpl. rewrite insert_app_r_alt by lia. rewrite Nat.sub_diag. reflexivity. }
    assert (Hget : forall A (x0 : option A) (l : list (option A)) v,
               length l = m' ->
               (x0 :: l ++ [v]) !! N.to_nat (n - 1) = Some v).
    { intros A x0 l v Hl. replace (N.to_nat (n - 1)) with (Datatypes.S (length l)) by lia.
      simpl. rewrite lookup_app_r by lia. rewrite Nat.sub_diag. reflexivity. }
    assert (Hseq : forall A (f : nat -> A), length (map f (seq 1 m')) = m').
    { intros A f. rewrite length_map, length_seq. reflexivity. }
    run_bind ltac:(eapply sums_pointer_run; [exact Hpos | exact Hxl]).
    run_bind ltac:(eapply kernel_configure_run; apply Hlast, Hseq).
    rewrite Hins by apply Hseq.
    run_bind ltac:(eapply sums_pointer_run; [exact Hpos | exact Hxl]).
    run_bind ltac:(eapply kernel_border_run; apply Hget, Hseq).
    run_bind ltac:(eapply border_configure_run; apply Hlast, Hseq).
    rewrite Hins by apply Hseq.
    rewrite (sums_update_run _ _ _ _ _ _ _ _ _ _ xl Hpos Hxl).
    rewrite Hidx.
    assert (Emg : (mg ++ [SumsTensor 0]) ++ map SumsTensor (seq 1 m') =
                  mg ++ map SumsTensor (seq 0 (Datatypes.S m'))).
    { rewrite <- app_assoc. reflexivity. }
    assert (Esv : <[m' := allocator_allocate xl]>
                    (map allocator_allocate (take m' (t0 :: rest)) ++ [xl]) =
                  intermediate_tensor input true sh0
                  :: map (intermediate_tensor input true) (reduced_shapes m' sh0)).
    { rewrite insert_app_r_alt by lia. rewrite Htake, Nat.sub_diag. cbn [insert list_insert].
      change [allocator_allocate xl] with (map allocator_allocate [xl]).
      rewrite <- map_app, <- Hdrop, take_drop.
      subst t0 rest. cbn [map]. rewrite map_map. reflexivity. }
    assert (Eks : staged_kernels 0 first_op last_op
                    (uint_of_size_t (dimension (info input) 0))
                    (Datatypes.S (Datatypes.S m')) =
                  k0 :: map (middle_kernel 0) (seq 1 m') ++
                  [mkKernelConfig (SumsTensor m') OutputTensor 0 last_op
                     (Some (uint_of_size_t (dimension (info input) 0)))]).
    { unfold staged_kernels. cbn [Nat.sub]. rewrite Nat.sub_0_r. reflexivity. }
    rewrite Emg, Esv, Eks. cbn [map]. rewrite !map_app, !map_map. reflexivity.
  - unfold configure, configure_single_state.
    pose proof (stages_not_staged _ _ Hs) as Hn.
    do 3 (eapply bind_step; [apply modify_this_run|]).
    run_bind ltac:(apply get_this_run).
    cbn [set_num_of_stages set_reduction_axis set_is_quantized
         _memory_group _sums_vector _reduction_kernels_vector
         _border_handlers_vector _num_of_stages _reduction_axis _is_quantized this trace].
    run_bind ltac:(apply modify_this_run).
    unfold on_staged_path in Hs. rewrite Hs. rewrite Hn.
    cbn [set_reduction_kernels_vector
         _memory_group _sums_vector _reduction_kernels_vector
         _border_handlers_vector _num_of_stages _reduction_axis _is_quantized].
    reflexivity.
Qed.

(** ** Running [run] *)

Lemma enqueue_border_handler_run (i : N) (w : World) :
  (N.to_nat i < length (_border_handlers_vector (this w)))%nat ->
  enqueue_border_handler i w = (log w [Enqueue (BorderHandler (N.to_nat i)) false], Ret tt).
Proof.
  intros Hi. unfold enqueue_border_handler.
  run_bind ltac:(reflexivity).
  destruct (lookup_lt_is_Some_2 _ _ Hi) as [b Hb].
  run_bind ltac:(apply (at_offset_Some _ _ b); [lia | rewrite Z_to_nat_of_N; exact Hb]).
  reflexivity.
Qed.

Lemma enqueue_reduction_kernel_run (i : N) (w : World) :
  (N.to_nat i < length (_reduction_kernels_vector (this w)))%nat ->
  enqueue_reduction_kernel i w =
  (log w [Enqueue (ReductionKernel (N.to_nat i)) false], Ret tt).
Proof.
  intros Hi. unfold enqueue_reduction_kernel.
  run_bind ltac:(reflexivity).
  destruct (lookup_lt_is_Some_2 _ _ Hi) as [k Hk].
  run_bind ltac:(apply (at_offset_Some _ _ k); [lia | rewrite Z_to_nat_of_N; exact Hk]).
  reflexivity.
Qed.

Lemma run_loop (count : nat) :
  forall (i : N) (w : World),
    (N.to_nat i + count <= length (_border_handlers_vector (this w)))%nat ->
    (N.to_nat i + count <= length (_reduction_kernels_vector (this w)))%nat ->
    for_loop count i run_body tt w =
    (log w (flat_map stage_submissions (seq (N.to_nat i) count)), Ret tt).
Proof.
  induction count as [|c IH]; intros i w Hb Hk.
  - simpl. rewrite log_nil. reflexivity.
  - cbn [for_loop]. eapply bind_step.
    + unfold run_body. eapply bind_step.
      * apply enqueue_border_handler_run. lia.
      * apply enqueue_reduction_kernel_run. simpl. lia.
    + rewrite IH by (simpl; lia).
      rewrite !log_log. replace (N.to_nat (i + 1)) with (Datatypes.S (N.to_nat i)) by lia.
      reflexivity.
Qed.

Lemma run_run (w : World) :
  (if (_reduction_axis (this w) =? 0) && negb (_is_quantized (this w))
   then (N.to_nat (_num_of_stages (this w)) <= length (_border_handlers_vector (this w))
         /\ N.to_nat (_num_of_stages (this w)) <= length (_reduction_kernels_vector (this w)))%nat
   else (0 < length (_reduction_kernels_vector (this w)))%nat) ->
  run w = (log w (run_trace (this w)), Ret tt).
Proof.
  intros Hlen. unfold run, run_trace.
  run_bind ltac:(reflexivity).
  run_bind ltac:(reflexivity).
  cbn [this log].
  destruct ((_reduction_axis (this w) =? 0) && negb (_is_quantized (this w))).
  - destruct Hlen as [Hb Hk]. unfold for_range. rewrite N.sub_0_r.
    run_bind ltac:(apply run_loop; simpl; lia).
    unfold emit, log. simpl. rewrite <- !app_assoc. reflexivity.
  - run_bind ltac:(apply enqueue_reduction_kernel_run; simpl; lia).
    unfold emit, log. simpl. rewrite <- !app_assoc. reflexivity.
Qed.

(** ** Stages and kinds *)

Lemma check_requests_prefix (rs : list StageRequest) :
  fst (check_requests rs) `prefix_of` rs.
Proof.
  induction rs as [|r rs IH]; simpl.
  - reflexivity.
  - destruct (is_error (request_status r)); simpl.
    + exists rs. reflexivity.
    + apply prefix_cons. exact IH.
Qed.

Lemma check_requests_accept (rs : list StageRequest) :
  is_error (snd (check_requests rs)) = false -> fst (check_requests rs) = rs.
Proof.
  induction rs as [|r rs IH]; simpl; [reflexivity|].
  destruct (is_error (request_status r)) eqn:E; simpl.
  - congruence.
  - intros Hok. rewrite IH by exact Hok. reflexivity.
Qed.

Lemma middle_requests_ops (axis : N) (sums : list TensorInfo) :
  map r_op (middle_requests axis sums) = replicate (length sums - 1) SUM.
Proof.
  induction sums as [|a [|b sums] IH]; try reflexivity.
  change (middle_requests axis (a :: b :: sums))
    with (mkStageRequest a b axis SUM None :: middle_requests axis (b :: sums)).
  cbn [map r_op]. rewrite IH. simpl. rewrite Nat.sub_0_r. reflexivity.
Qed.

Lemma stage_requests_ops (input output : TensorInfo) (axis : N)
  (first_op last_op : ReductionOperation) (sums : list TensorInfo) :
  sums <> [] ->
  map r_op (stage_requests input output axis first_op last_op sums) =
  stage_kinds (Datatypes.S (length sums)) first_op last_op.
Proof.
  intros Hne. destruct sums as [|s0 sums]; [congruence|].
  unfold stage_requests, stage_kinds. cbn [map r_op].
  rewrite map_app, middle_requests_ops. simpl. rewrite Nat.sub_0_r. reflexivity.
Qed.

Lemma middle_kernels_ops (axis : N) (s m : nat) :
  map (fun j => k_op (middle_kernel axis j)) (seq s m) = replicate m SUM.
Proof.
  revert s. induction m as [|m IH]; intros s; simpl; [reflexivity|].
  rewrite IH. reflexivity.
Qed.

Lemma staged_kernels_ops (axis : N) (first_op last_op : ReductionOperation) (width : N)
  (n : nat) :
  map k_op (staged_kernels axis first_op last_op width n) = stage_kinds n first_op last_op.
Proof.
  unfold staged_kernels, stage_kinds. cbn [map k_op].
  rewrite map_app, map_map, middle_kernels_ops. reflexivity.
Qed.

Lemma middle_stages_agree (a b : TensorInfo) (axis : N) (l : list TensorInfo) :
  forall pre : list TensorInfo,
    map (fun j => stage_of_kernel a b (pre ++ l) (Some (middle_kernel axis j)))
      (seq (Datatypes.S (length pre)) (length l - 1)) =
    map (fun r => Some (stage_of_request r)) (middle_requests axis l).
Proof.
  induction l as [|x [|y l] IH]; intros pre; try reflexivity.
  change (middle_requests axis (x :: y :: l))
    with (mkStageRequest x y axis SUM None :: middle_requests axis (y :: l)).
  replace (length (x :: y :: l) - 1)%nat with (Datatypes.S (length (y :: l) - 1))
    by (simpl; lia).
  cbn [seq map]. f_equal.
  - unfold stage_of_kernel, middle_kernel, resolve, stage_of_request.
    cbn [k_input k_output k_op r_input r_output r_op].
    replace (Datatypes.S (length pre) - 1)%nat with (length pre) by lia.
    rewrite lookup_app_r by lia. rewrite Nat.sub_diag.
    rewrite lookup_app_r by lia.
    replace (Datatypes.S (length pre) - length pre)%nat with 1%nat by lia. reflexivity.
  - specialize (IH (pre ++ [x])). rewrite length_app in IH. cbn [length] in IH.
    rewrite <- app_assoc in IH. cbn [app] in IH.
    replace (Datatypes.S (length pre + 1)) with (Datatypes.S (Datatypes.S (length pre)))
      in IH by lia.
    exact IH.
Qed.

Lemma staged_stages_agree (a b : TensorInfo) (axis : N)
  (first_op last_op : ReductionOperation) (width : N) (sums : list TensorInfo) :
  sums <> [] ->
  map (stage_of_kernel a b sums)
    (map Some (staged_kernels axis first_op last_op width (Datatypes.S (length sums)))) =
  map (fun r => Some (stage_of_request r))
    (stage_requests a b axis first_op last_op sums).
Proof.
  intros Hne. destruct sums as [|s0 sums]; [congruence|].
  unfold staged_kernels, stage_requests.
  replace (Datatypes.S (length (s0 :: sums)) - 2)%nat with (length (s0 :: sums) - 1)%nat
    by (simpl; lia).
  cbn [map]. rewrite !map_app, !map_map. cbn [map].
  apply (f_equal2 cons); [reflexivity|].
  apply (f_equal2 app); [|apply (f_equal2 cons); [|reflexivity]].
  - apply (middle_stages_agree a b axis (s0 :: sums) []).
  - unfold stage_of_kernel, resolve, stage_of_request.
    cbn [k_input k_output k_op r_input r_output r_op].
    rewrite last_lookup.
    replace (Init.Nat.pred (length (s0 :: sums))) with (length (s0 :: sums) - 1)%nat
      by (simpl; lia).
    destruct ((s0 :: sums) !! (length (s0 :: sums) - 1)%nat) eqn:E; [reflexivity|].
    apply lookup_ge_None in E. simpl in E. lia.
Qed.

(** ** The stage count and the formula of the specification *)

Lemma ceil_div_128_least (a : N) :
  a <= ceil_div a 128 * 128 /\ forall k, a <= k * 128 -> ceil_div a 128 <= k.
Proof.
  unfold ceil_div. split.
  - pose proof (N.Div0.div_mod (a + 128 - 1) 128) as Hd.
    pose proof (N.mod_lt (a + 128 - 1) 128 ltac:(discriminate)) as Hm. lia.
  - intros k Hk. apply N.lt_succ_r. apply N.Div0.div_lt_upper_bound. lia.
Qed.

Lemma ceil_div_128f_exact (d : N) : d <= 2 ^ 24 -> ceil_div_128f d = ceil_div d 128.
Proof.
  intros Hd. unfold ceil_div_128f, ceil_div. rewrite (float_of_uint_exact d Hd).
  f_equal. lia.
Qed.

Lemma dimension_0 (input : TensorInfo) : dimension input 0 = shape_x (tensor_shape input).
Proof. reflexivity. Qed.

Lemma stages_staged_small (input : TensorInfo) (axis : N) :
  on_staged_path input axis = true ->
  ceil_div_128f (dimension input 0) < UINT_RANGE ->
  calculate_number_of_stages input axis = ceil_div_128f (dimension input 0) / 128 + 2.
Proof.
  intros Hs Hlt. rewrite (stages_staged _ _ Hs). unfold uint_of_float.
  apply N.ltb_lt in Hlt. rewrite Hlt. reflexivity.
Qed.

(** Where the extent is exactly representable in a [float], the stage count
    is the one of the formula. *)
Lemma stage_count_formula_up_to_2_24 (input : TensorInfo) (axis : N) :
  on_staged_path input axis = true ->
  dimension input 0 <= 2 ^ 24 ->
  calculate_number_of_stages input axis = stage_count_formula (dimension input 0).
Proof.
  intros Hs Hd. unfold stage_count_formula.
  rewrite <- (ceil_div_128f_exact _ Hd).
  apply stages_staged_small; [exact Hs|].
  rewrite (ceil_div_128f_exact _ Hd). unfold ceil_div.
  apply N.Div0.div_lt_upper_bound.
  change (2 ^ 24) with 16777216 in Hd. change UINT_RANGE with 4294967296. lia.
Qed.

(** The two examples of the specification: extents 100 and 16000 give two
    stages, and extent 100 one intermediate extent of 1. *)
Lemma stage_count_examples (input : TensorInfo) (axis : N) :
  on_staged_path input axis = true ->
  (dimension input 0 = 100 ->
   calculate_number_of_stages input axis = 2 /\ ceil_div_128f (dimension input 0) = 1) /\
  (dimension input 0 = 16000 -> calculate_number_of_stages input axis = 2).
Proof.
  intros Hs. split.
  - intros Hd. split.
    + rewrite (stage_count_formula_up_to_2_24 _ _ Hs) by (rewrite Hd; vm_compute; discriminate).
      rewrite Hd. reflexivity.
    + rewrite Hd. reflexivity.
  - intros Hd.
    rewrite (stage_count_formula_up_to_2_24 _ _ Hs) by (rewrite Hd; vm_compute; discriminate).
    rewrite Hd. reflexivity.
Qed.

(** C1.  The stage count of a non-quantized input reduced along axis 0 is,
    by the specification, [floor(ceil(d / 128) / 128) + 2] for every axis-0
    extent [d].  The source computes [ceil(d / 128.f)] in single precision: at
    [d = 33570689] the extent is rounded to 33570688 on its way to [float],
    the number of work groups comes out as 262271 instead of 262272, and
    the stage count as 2050, where the formula gives 2051. *)
Theorem stage_count_at_33570689 (input : TensorInfo) :
  dimension input 0 = 33570689 ->
  is_data_type_quantized (data_type input) = false ->
  calculate_number_of_stages input 0 = 2050 /\
  stage_count_formula (dimension input 0) = 2051.
Proof.
  intros Hd Hq.
  assert (Hs : on_staged_path input 0 = true) by (apply on_staged_path_spec; auto).
  split.
  - rewrite (stages_staged_small _ _ Hs); rewrite Hd; reflexivity.
  - rewrite Hd. reflexivity.
Qed.

(** ** Kinds the staged path does not support *)

Lemma select_ops_None (op : ReductionOperation) :
  op <> SUM -> op <> MEAN_SUM -> op <> SUM_SQUARE -> select_ops op = None.
Proof. destruct op; intros; congruence || reflexivity. Qed.

Lemma Forall_replicate_None {A : Type} (n : nat) :
  Forall (fun k : option A => k = None) (replicate n None).
Proof. induction n; simpl; constructor; auto. Qed.

(** C2 (as amended).  A reduction kind outside SUM, MEAN_SUM and SUM_SQUARE,
    requested along axis 0 on a non-quantized input, makes [validate] stop
    with the fatal error "Not supported" of ARM_COMPUTE_ERROR, which is not a
    status returned to the caller; the world is as it was, so no kernel
    validation was asked for.  [configure] on the same request stops with
    the same fatal error, with every reduction kernel and every border
    handler still unconfigured. *)
Theorem unsupported_kind_is_fatal (input output : CLTensor) (axis : N)
  (op : ReductionOperation) (w : World) :
  axis = 0 ->
  is_data_type_quantized (data_type (info input)) = false ->
  op <> SUM -> op <> MEAN_SUM -> op <> SUM_SQUARE ->
  validate (info input) (info output) axis op w = (w, Fatal "Not supported") /\
  snd (configure input output axis op w) = Fatal "Not supported" /\
  trace (fst (configure input output axis op w)) = trace w /\
  Forall (fun k => k = None)
    (_reduction_kernels_vector (this (fst (configure input output axis op w)))) /\
  Forall (fun b => b = None)
    (_border_handlers_vector (this (fst (configure input output axis op w)))).
Proof.
  intros Hax Hq H1 H2 H3.
  assert (Hs : on_staged_path (info input) axis = true) by (apply on_staged_path_spec; auto).
  pose proof (select_ops_None op H1 H2 H3) as Hsel.
  rewrite validate_run, configure_run. unfold validate_plan.
  rewrite Hs, Hsel. cbn [fst snd this trace configure_unsupported_state
                         _reduction_kernels_vector _border_handlers_vector].
  repeat split; apply Forall_replicate_None.
Qed.

(** ** [validate] and [configure] side by side *)

(** C3.  [validate] and [configure] split a request into the same stages.
    Either the kind is not supported on the staged path and both stop with
    the same fatal error, or there is one list [rs] of stages such that
    - [validate] asks the kernel to validate the stages of [rs] in order,
      up to the first one that fails, and returns that outcome;
    - [configure] completes, stores [length rs] as the stage count, and
      its kernels, read in order, take the descriptors and the kind of the
      stages of [rs];
    - on the staged path the descriptors of the temporary tensors of
      [validate] are those of [_sums_vector] after [configure].
    In both cases the stage count [configure] stores is the value of
    [calculate_number_of_stages] that [validate] computes. *)
Theorem validate_configure_same_stages (input output : CLTensor) (axis : N)
  (op : ReductionOperation) (w : World) :
  _num_of_stages (this (fst (configure input output axis op w))) =
    calculate_number_of_stages (info input) axis /\
  ((validate (info input) (info output) axis op w = (w, Fatal "Not supported") /\
    snd (configure input output axis op w) = Fatal "Not supported")
   \/
   exists rs : list StageRequest,
     validate (info input) (info output) axis op w =
       (log w (map request_event (fst (check_requests rs))), Ret (snd (check_requests rs))) /\
     fst (check_requests rs) `prefix_of` rs /\
     snd (configure input output axis op w) = Ret tt /\
     _num_of_stages (this (fst (configure input output axis op w))) = N.of_nat (length rs) /\
     configured_stages input output (this (fst (configure input output axis op w))) =
       map (fun r => Some (stage_of_request r)) rs /\
     (if on_staged_path (info input) axis
      then validate_sums_vector (info input) (calculate_number_of_stages (info input) axis) w =
           (w, Ret (map info
                      (_sums_vector (this (fst (configure input output axis op w))))))
      else rs = [mkStageRequest (info input) (info output) axis op None])).
Proof.
  rewrite validate_run, configure_run. unfold validate_plan.
  destruct (on_staged_path (info input) axis) eqn:Hs.
  - pose proof (stages_staged_bounds _ _ Hs) as [Hlo Hhi].
    pose proof (staged_sub_1 _ _ Hs) as Hsub.
    destruct (select_ops op) as [[first_op last_op]|] eqn:Esel.
    + split; [reflexivity|]. right.
      set (n := calculate_number_of_stages (info input) axis) in *.
      assert (Hinfos : map info (map (intermediate_tensor input true)
                          (reduced_shapes (N.to_nat n - 1) (tensor_shape (info input)))) =
                       intermediate_infos (info input) n).
      { rewrite map_map. unfold intermediate_infos. rewrite Hsub.
        replace (N.to_nat (n - 1)) with (N.to_nat n - 1)%nat by lia. reflexivity. }
      assert (Hlen : length (intermediate_infos (info input) n) = (N.to_nat n - 1)%nat).
      { rewrite length_intermediate_infos, Hsub. lia. }
      assert (Hne : intermediate_infos (info input) n <> []).
      { intros E. rewrite E in Hlen. simpl in Hlen. lia. }
      exists (stage_requests (info input) (info output) axis first_op last_op
                (intermediate_infos (info input) n)).
      split; [reflexivity|]. split; [apply check_requests_prefix|].
      split; [reflexivity|].
      cbn [fst this configure_staged_state _num_of_stages _sums_vector].
      split; [|split].
      * apply (f_equal length) in Hinfos. 
        pose proof (f_equal (@length _)
                      (stage_requests_ops (info input) (info output) axis first_op last_op
                         _ Hne)) as Hl.
        rewrite length_map in Hl. rewrite Hl. unfold stage_kinds. simpl.
        rewrite length_app, length_replicate. simpl. lia.
      * unfold configured_stages.
        cbn [configure_staged_state _sums_vector _reduction_kernels_vector].
        fold n. rewrite Hinfos.
        replace (N.to_nat n) with (Datatypes.S (length (intermediate_infos (info input) n)))
          by lia.
        apply staged_stages_agree. exact Hne.
      * fold n. rewrite Hinfos. apply validate_sums_vector_eq.
    + split; [reflexivity|]. left. split; reflexivity.
  - split; [cbn [fst this configure_single_state _num_of_stages];
            symmetry; apply stages_not_staged; exact Hs|].
    right. exists [mkStageRequest (info input) (info output) axis op None].
    split; [reflexivity|]. split; [apply check_requests_prefix|].
    repeat split; reflexivity.
Qed.

(** ** Off the staged path *)

Lemma off_the_staged_path (input : TensorInfo) (axis : N) :
  axis <> 0 \/ is_data_type_quantized (data_type input) = true ->
  on_staged_path input axis = false.
Proof.
  unfold on_staged_path. intros [Hax|Hq].
  - apply N.eqb_neq in Hax. rewrite Hax. reflexivity.
  - rewrite Hq. apply andb_false_r.
Qed.

(** C4.  With an axis other than 0, or a quantized input on axis 0, and
    whatever the shape of the input: the stage count is 1; [validate] asks
    for the validation of the one stage from the input to the output;
    [configure] completes with one reduction kernel, configured from the
    caller's input to the caller's output with the requested kind and the
    scalar 0, and leaves [_sums_vector], the memory group and the border
    handlers as they were: no intermediate buffer is created. *)
Theorem single_stage_off_the_staged_path (input output : CLTensor) (axis : N)
  (op : ReductionOperation) (w : World) :
  axis <> 0 \/ is_data_type_quantized (data_type (info input)) = true ->
  calculate_number_of_stages (info input) axis = 1 /\
  fst (validate (info input) (info output) axis op w) =
    log w [KernelValidate (info input) (info output) axis op None] /\
  snd (configure input output axis op w) = Ret tt /\
  trace (fst (configure input output axis op w)) = trace w /\
  let o' := this (fst (configure input output axis op w)) in
  _num_of_stages o' = 1 /\
  _reduction_kernels_vector o' =
    [Some (mkKernelConfig InputTensor OutputTensor axis op (Some 0))] /\
  _sums_vector o' = _sums_vector (this w) /\
  _memory_group o' = _memory_group (this w) /\
  _border_handlers_vector o' = _border_handlers_vector (this w).
Proof.
  intros Hoff. apply off_the_staged_path in Hoff.
  rewrite validate_run, configure_run. unfold validate_plan. rewrite Hoff.
  split; [apply stages_not_staged; exact Hoff|].
  split.
  - cbn [check_requests]. destruct (is_error _); reflexivity.
  - repeat split; reflexivity.
Qed.

(** A new function object has no intermediate buffer, and none after a
    single-stage [configure]. *)
Lemma single_stage_no_intermediate (input output : CLTensor) (axis : N)
  (op : ReductionOperation) (tr : list event) :
  axis <> 0 \/ is_data_type_quantized (data_type (info input)) = true ->
  _sums_vector
    (this (fst (configure input output axis op (mkWorld CLReductionOperation_new tr)))) = [].
Proof.
  intros Hoff. apply off_the_staged_path in Hoff.
  rewrite configure_run, Hoff. reflexivity.
Qed.

(** ** Kinds per stage *)

(** C5.  On the staged path a supported kind selects the kinds of the first
    and of the last stage as [select_ops] says: SUM gives (SUM, SUM),
    MEAN_SUM gives (SUM, MEAN_SUM), SUM_SQUARE gives (SUM_SQUARE, SUM); every
    stage between them applies SUM.  [validate] asks for the validation of
    stages [rs] whose kinds are, in order, [stage_kinds], stopping at the
    first failure; [configure] completes with its kernels configured with
    the kinds of [stage_kinds], in order. *)
Theorem staged_kinds (input output : CLTensor) (axis : N)
  (op first_op last_op : ReductionOperation) (w : World) :
  axis = 0 ->
  is_data_type_quantized (data_type (info input)) = false ->
  select_ops op = Some (first_op, last_op) ->
  let n := N.to_nat (calculate_number_of_stages (info input) axis) in
  (exists rs : list StageRequest,
     map r_op rs = stage_kinds n first_op last_op /\
     fst (check_requests rs) `prefix_of` rs /\
     validate (info input) (info output) axis op w =
       (log w (map request_event (fst (check_requests rs))),
        Ret (snd (check_requests rs)))) /\
  snd (configure input output axis op w) = Ret tt /\
  map (option_map k_op)
    (_reduction_kernels_vector (this (fst (configure input output axis op w)))) =
    map Some (stage_kinds n first_op last_op).
Proof.
  intros Hax Hq Hsel n.
  assert (Hs : on_staged_path (info input) axis = true) by (apply on_staged_path_spec; auto).
  pose proof (stages_staged_bounds _ _ Hs) as [Hlo Hhi].
  pose proof (staged_sub_1 _ _ Hs) as Hsub.
  rewrite validate_run, configure_run. unfold validate_plan. rewrite Hs, Hsel.
  split; [|split].
  - exists (stage_requests (info input) (info output) axis first_op last_op
              (intermediate_infos (info input)
                 (calculate_number_of_stages (info input) axis))).
    assert (Hlen : length (intermediate_infos (info input)
                             (calculate_number_of_stages (info input) axis)) =
                   (n - 1)%nat).
    { rewrite length_intermediate_infos, Hsub. subst n. lia. }
    split; [|split; [apply check_requests_prefix | reflexivity]].
    rewrite stage_requests_ops.
    + rewrite Hlen. replace (Datatypes.S (n - 1)) with n by (subst n; lia). reflexivity.
    + intros E. rewrite E in Hlen. simpl in Hlen. subst n. lia.
  - reflexivity.
  - cbn [fst this configure_staged_state _reduction_kernels_vector].
    rewrite map_map. cbn [option_map]. rewrite <- (map_map k_op Some).
    rewrite staged_kernels_ops. reflexivity.
Qed.

(** ** Intermediate descriptors *)

Lemma ceil_div_128_le (d : N) : ceil_div d 128 <= d.
Proof.
  unfold ceil_div. destruct (N.eq_dec d 0) as [->|Hd]; [vm_compute; discriminate|].
  apply N.lt_succ_r. apply N.Div0.div_lt_upper_bound. lia.
Qed.

Lemma reduce_shape_cons (d : N) (rest : list N) :
  reduce_shape (d :: rest) = ceil_div_128f d :: rest.
Proof. reflexivity. Qed.

(** Up to [2^24] the loop over the shapes computes the exact quotients and
    leaves the other extents alone. *)
Lemma reduced_shapes_exact (count : nat) :
  forall (d : N) (rest : list N),
    d <= 2 ^ 24 ->
    reduced_shapes count (d :: rest) = map (fun x => x :: rest) (ceil_chain count d).
Proof.
  induction count as [|c IH]; intros d rest Hd; [reflexivity|].
  cbn [reduced_shapes ceil_chain map]. rewrite reduce_shape_cons.
  rewrite (ceil_div_128f_exact d Hd).
  rewrite IH by (pose proof (ceil_div_128_le d); lia). reflexivity.
Qed.

Lemma configure_sums_vector (input output : CLTensor) (axis : N)
  (op : ReductionOperation) (w : World) :
  on_staged_path (info input) axis = true ->
  map info (_sums_vector (this (fst (configure input output axis op w)))) =
  intermediate_infos (info input) (calculate_number_of_stages (info input) axis).
Proof.
  intros Hs. pose proof (stages_staged_bounds _ _ Hs) as [Hlo Hhi].
  pose proof (staged_sub_1 _ _ Hs) as Hsub.
  rewrite configure_run, Hs. unfold intermediate_infos. rewrite Hsub.
  replace (N.to_nat (calculate_number_of_stages (info input) axis - 1))
    with (N.to_nat (calculate_number_of_stages (info input) axis) - 1)%nat by lia.
  destruct (select_ops op) as [[first_op last_op]|];
    cbn [fst this configure_staged_state configure_unsupported_state _sums_vector];
    rewrite map_map; reflexivity.
Qed.

(** Whatever the extents, every shape of the chain keeps the extents of
    the dimensions other than 0. *)
Lemma reduced_shapes_tail (count : nat) :
  forall (d : N) (rest : list N),
    Forall (fun shape => tail shape = rest) (reduced_shapes count (d :: rest)).
Proof.
  induction count as [|c IH]; intros d rest; [constructor|].
  cbn [reduced_shapes]. rewrite reduce_shape_cons. constructor; [reflexivity|]. apply IH.
Qed.

(** The intermediate descriptors on the staged path, whatever the extents:
    there are [num_of_stages - 1] of them, and each has the extents of the
    input in the dimensions other than 0, its data type and its number of
    channels. *)
Lemma intermediate_descriptors_copy (input : TensorInfo) (axis : N) (d : N)
  (rest : list N) :
  on_staged_path input axis = true ->
  tensor_shape input = d :: rest ->
  length (intermediate_infos input (calculate_number_of_stages input axis)) =
    N.to_nat (calculate_number_of_stages input axis - 1) /\
  Forall (fun i => tail (tensor_shape i) = rest /\
                   data_type i = data_type input /\
                   num_channels i = num_channels input)
    (intermediate_infos input (calculate_number_of_stages input axis)).
Proof.
  intros Hs Hshape. pose proof (staged_sub_1 _ _ Hs) as Hsub. split.
  - rewrite length_intermediate_infos, Hsub. reflexivity.
  - unfold intermediate_infos. rewrite Hshape.
    pose proof (reduced_shapes_tail
                  (N.to_nat (uint_sub (calculate_number_of_stages input axis) 1)) d rest)
      as Htail.
    induction Htail as [|shape shapes Hx _ IH]; cbn [map]; constructor; auto.
Qed.

(** The intermediate descriptors on the staged path, for an axis-0 extent
    up to [2^24]: there are [num_of_stages - 1] of them, in [validate] and
    in [configure] alike; their axis-0 extents are the successive exact
    quotients by 128; the other extents, the data type and the number of
    channels are those of the input. *)
Lemma intermediate_descriptors_up_to_2_24 (input output : CLTensor) (axis : N)
  (op : ReductionOperation) (w : World) (d : N) (rest : list N) :
  on_staged_path (info input) axis = true ->
  tensor_shape (info input) = d :: rest ->
  d <= 2 ^ 24 ->
  let n := calculate_number_of_stages (info input) axis in
  let expected :=
    map (fun x => mkTensorInfo (x :: rest) (data_type (info input))
                    (num_channels (info input)))
      (ceil_chain (N.to_nat (n - 1)) d) in
  validate_sums_vector (info input) n w = (w, Ret expected) /\
  map info (_sums_vector (this (fst (configure input output axis op w)))) = expected /\
  length expected = N.to_nat (n - 1).
Proof.
  intros Hs Hshape Hd n expected.
  pose proof (staged_sub_1 _ _ Hs) as Hsub. fold n in Hsub.
  assert (E : intermediate_infos (info input) n = expected).
  { unfold intermediate_infos, expected. rewrite Hsub, Hshape.
    rewrite (reduced_shapes_exact _ d rest Hd), map_map. reflexivity. }
  split; [|split].
  - rewrite validate_sums_vector_eq, E. reflexivity.
  - rewrite (configure_sums_vector input output axis op w Hs). exact E.
  - unfold expected. rewrite length_map.
    clear. generalize (N.to_nat (n - 1)) as c. intros c. revert d.
    induction c as [|c IH]; intros d; simpl; [reflexivity|]. rewrite IH. reflexivity.
Qed.

(** C6.  The intermediate descriptors have, by the specification,
    [ceil(previous extent / 128)] as axis-0 extent.  The source computes the quotient in
    single precision: for an input of axis-0 extent 33570689 the first
    intermediate descriptor, of [validate] and of [configure] alike, has
    axis-0 extent 262271, where [ceil(33570689 / 128)] is 262272. *)
Theorem first_intermediate_extent_at_33570689 (input output : CLTensor)
  (op : ReductionOperation) (w : World) (rest : list N) :
  tensor_shape (info input) = 33570689 :: rest ->
  is_data_type_quantized (data_type (info input)) = false ->
  ceil_div 33570689 128 = 262272 /\
  (exists (i0 : TensorInfo) (sums : list TensorInfo),
     validate_sums_vector (info input) (calculate_number_of_stages (info input) 0) w =
       (w, Ret (i0 :: sums)) /\
     tensor_shape i0 = 262271 :: rest) /\
  (exists (t0 : CLTensor) (sums : list CLTensor),
     _sums_vector (this (fst (configure input output 0 op w))) = t0 :: sums /\
     tensor_shape (info t0) = 262271 :: rest).
Proof.
  intros Hshape Hq.
  assert (Hs : on_staged_path (info input) 0 = true) by (apply on_staged_path_spec; auto).
  pose proof (stages_staged_bounds _ _ Hs) as [Hlo Hhi].
  pose proof (staged_sub_1 _ _ Hs) as Hsub.
  assert (Hm : exists m', N.to_nat (calculate_number_of_stages (info input) 0 - 1) =
                          Datatypes.S m').
  { exists (N.to_nat (calculate_number_of_stages (info input) 0) - 2)%nat. lia. }
  destruct Hm as [m' Hm].
  split; [reflexivity|]. split.
  - rewrite validate_sums_vector_eq. unfold intermediate_infos.
    rewrite Hsub, Hm, Hshape. cbn [reduced_shapes map].
    eexists _, _. split; [reflexivity|]. reflexivity.
  - rewrite configure_run, Hs.
    replace (N.to_nat (calculate_number_of_stages (info input) 0 - 1))
      with (N.to_nat (calculate_number_of_stages (info input) 0) - 1)%nat in Hm by lia.
    destruct (select_ops op) as [[first_op last_op]|];
      cbn [fst this configure_staged_state configure_unsupported_state _sums_vector];
      rewrite Hm, Hshape; cbn [reduced_shapes map];
      eexists _, _; (split; [reflexivity|]); reflexivity.
Qed.

(** ** Sizes of the arrays, submissions of [run] *)

Lemma uint_of_size_t_small (d : N) : d < UINT_RANGE -> uint_of_size_t d = d.
Proof. intros Hd. apply N.mod_small. exact Hd. Qed.

Lemma length_staged_kernels (axis : N) (first_op last_op : ReductionOperation) (width : N)
  (n : nat) :
  (2 <= n)%nat -> length (staged_kernels axis first_op last_op width n) = n.
Proof.
  intros Hn. unfold staged_kernels. simpl.
  rewrite length_app, length_map, length_seq. simpl. lia.
Qed.

(** The sizes of the three arrays after [configure] on the staged path. *)
Lemma configure_lengths (input output : CLTensor) (axis : N) (op : ReductionOperation)
  (w : World) :
  on_staged_path (info input) axis = true ->
  let n := N.to_nat (calculate_number_of_stages (info input) axis) in
  let o' := this (fst (configure input output axis op w)) in
  length (_reduction_kernels_vector o') = n /\
  length (_border_handlers_vector o') = n /\
  length (_sums_vector o') = (n - 1)%nat /\
  _num_of_stages o' = calculate_number_of_stages (info input) axis /\
  _reduction_axis o' = axis /\
  _is_quantized o' = false.
Proof.
  intros Hs n o'. pose proof (stages_staged_bounds _ _ Hs) as [Hlo Hhi].
  assert (Hn : (2 <= n)%nat) by (subst n; lia).
  subst o'. rewrite configure_run, Hs.
  destruct (select_ops op) as [[first_op last_op]|];
    cbn [fst this configure_staged_state configure_unsupported_state
         _reduction_kernels_vector _border_handlers_vector _sums_vector
         _num_of_stages _reduction_axis _is_quantized];
    rewrite ?length_map, ?length_replicate, ?length_reduced_shapes;
    rewrite ?(length_staged_kernels _ _ _ _ _ Hn); repeat split; try reflexivity.
  all: try (apply on_staged_path_spec in Hs; tauto).
Qed.

Lemma length_stage_submissions (s n : nat) :
  length (flat_map stage_submissions (seq s n)) = (2 * n)%nat.
Proof.
  revert s. induction n as [|n IH]; intros s; simpl; [reflexivity|].
  rewrite IH. lia.
Qed.

(** C7.  On a function object that [configure] has set up, [run] first
    acquires the memory group, then enqueues, without flushing or waiting,
    for each stage index in ascending order the border handler of the stage
    and then its reduction kernel ([2 * num_of_stages] submissions), and
    releases the memory group right after the last submission; off the
    staged path it enqueues the one reduction kernel between the
    acquisition and the release.  [run] leaves the object as it is, so this
    holds for every run, whatever was logged before. *)
Theorem run_submissions (input output : CLTensor) (axis : N) (op : ReductionOperation)
  (w w' : World) (tr : list event) :
  configure input output axis op w = (w', Ret tt) ->
  let n := N.to_nat (calculate_number_of_stages (info input) axis) in
  let submissions :=
    if on_staged_path (info input) axis
    then flat_map stage_submissions (seq 0 n)
    else [Enqueue (ReductionKernel 0) false] in
  run (mkWorld (this w') tr) =
    (mkWorld (this w') (tr ++ MemoryGroupAcquire :: submissions ++ [MemoryGroupRelease]),
     Ret tt) /\
  length submissions = (if on_staged_path (info input) axis then 2 * n else 1)%nat.
Proof.
  intros Hcfg n submissions.
  assert (Hw' : w' = fst (configure input output axis op w)) by (rewrite Hcfg; reflexivity).
  split.
  - rewrite run_run.
    + unfold log, run_trace. cbn [this trace]. f_equal. f_equal. f_equal. f_equal. f_equal.
      subst submissions. destruct (on_staged_path (info input) axis) eqn:Hs.
      * destruct (configure_lengths input output axis op w Hs)
          as (_ & _ & _ & Hn & Hax & Hq).
        rewrite <- Hw' in Hn, Hax, Hq. rewrite Hn, Hax, Hq.
        apply on_staged_path_spec in Hs as [-> _]. reflexivity.
      * rewrite Hw', configure_run, Hs.
        cbn [fst this configure_single_state _reduction_axis _is_quantized].
        unfold on_staged_path in Hs. rewrite Hs. reflexivity.
    + cbn [this]. destruct (on_staged_path (info input) axis) eqn:Hs.
      * destruct (configure_lengths input output axis op w Hs)
          as (Hk & Hb & _ & Hn & Hax & Hq).
        rewrite <- Hw' in Hk, Hb, Hn, Hax, Hq. rewrite Hn, Hax, Hq, Hk, Hb.
        apply on_staged_path_spec in Hs as [-> _]. simpl. fold n. lia.
      * rewrite Hw', configure_run, Hs.
        cbn [fst this configure_single_state _reduction_axis _is_quantized
             _reduction_kernels_vector].
        unfold on_staged_path in Hs. rewrite Hs. simpl. lia.
  - subst submissions. destruct (on_staged_path (info input) axis); [|reflexivity].
    apply length_stage_submissions.
Qed.

(** ** The scalar of the last stage *)

(** The first and the last stage [validate] asks the kernel to validate. *)
Lemma stage_requests_ends (input output : TensorInfo) (axis : N)
  (first_op last_op : ReductionOperation) (sums : list TensorInfo) :
  sums <> [] ->
  exists (s0 sl : TensorInfo),
    head (stage_requests input output axis first_op last_op sums) =
      Some (mkStageRequest input s0 axis first_op None) /\
    last (stage_requests input output axis first_op last_op sums) =
      Some (mkStageRequest sl output axis last_op
              (Some (uint_of_size_t (dimension input 0)))).
Proof.
  intros Hne. destruct sums as [|s0 sums]; [congruence|].
  exists s0, (default s0 (last (s0 :: sums))). split; [reflexivity|].
  unfold stage_requests. rewrite app_comm_cons. apply last_snoc.
Qed.

(** The first and the last kernel [configure] sets up on the staged path. *)
Lemma configure_kernels_ends (input output : CLTensor) (axis : N)
  (op first_op last_op : ReductionOperation) (w : World) :
  on_staged_path (info input) axis = true ->
  select_ops op = Some (first_op, last_op) ->
  snd (configure input output axis op w) = Ret tt /\
  head (_reduction_kernels_vector (this (fst (configure input output axis op w)))) =
    Some (Some (mkKernelConfig InputTensor (SumsTensor 0) axis first_op None)) /\
  last (_reduction_kernels_vector (this (fst (configure input output axis op w)))) =
    Some (Some (mkKernelConfig
                  (SumsTensor
                     (N.to_nat (calculate_number_of_stages (info input) axis) - 2))
                  OutputTensor axis last_op
                  (Some (uint_of_size_t (dimension (info input) 0))))).
Proof.
  intros Hs Hsel. rewrite configure_run, Hs, Hsel.
  cbn [fst snd this configure_staged_state _reduction_kernels_vector].
  split; [reflexivity|]. split; [reflexivity|].
  unfold staged_kernels. cbn [map]. rewrite map_app. cbn [map].
  rewrite app_comm_cons. apply last_snoc.
Qed.

(** C8 (as amended).  For MEAN_SUM along axis 0 on a non-quantized input, in
    [validate] and in [configure] alike, the first stage applies SUM, the
    last stage applies MEAN_SUM and writes to the caller's output, and the
    last stage receives as its scalar the axis-0 extent of the input
    converted to [unsigned int], that is the extent modulo [2^32] (the
    extent itself when it is below [2^32], see [uint_of_size_t_small]). *)
Theorem mean_sum_stages (input output : CLTensor) (axis : N) (w : World) :
  axis = 0 ->
  is_data_type_quantized (data_type (info input)) = false ->
  let width := dimension (info input) 0 mod 2 ^ 32 in
  (exists (rs : list StageRequest) (s0 sl : TensorInfo),
     validate (info input) (info output) axis MEAN_SUM w =
       (log w (map request_event (fst (check_requests rs))),
        Ret (snd (check_requests rs))) /\
     fst (check_requests rs) `prefix_of` rs /\
     head rs = Some (mkStageRequest (info input) s0 axis SUM None) /\
     last rs = Some (mkStageRequest sl (info output) axis MEAN_SUM (Some width))) /\
  snd (configure input output axis MEAN_SUM w) = Ret tt /\
  head (_reduction_kernels_vector (this (fst (configure input output axis MEAN_SUM w)))) =
    Some (Some (mkKernelConfig InputTensor (SumsTensor 0) axis SUM None)) /\
  last (_reduction_kernels_vector (this (fst (configure input output axis MEAN_SUM w)))) =
    Some (Some (mkKernelConfig
                  (SumsTensor
                     (N.to_nat (calculate_number_of_stages (info input) axis) - 2))
                  OutputTensor axis MEAN_SUM (Some width))).
Proof.
  intros Hax Hq width.
  assert (Hs : on_staged_path (info input) axis = true) by (apply on_staged_path_spec; auto).
  pose proof (stages_staged_bounds _ _ Hs) as [Hlo Hhi].
  pose proof (staged_sub_1 _ _ Hs) as Hsub.
  split.
  - assert (Hne : intermediate_infos (info input)
                    (calculate_number_of_stages (info input) axis) <> []).
    { intros E. apply (f_equal length) in E.
      rewrite length_intermediate_infos, Hsub in E. simpl in E. lia. }
    destruct (stage_requests_ends (info input) (info output) axis SUM MEAN_SUM _ Hne)
      as (s0 & sl & Hhd & Hlast).
    eexists _, s0, sl. split; [|split; [apply check_requests_prefix|split]].
    + rewrite validate_run. unfold validate_plan. rewrite Hs. cbn [select_ops]. reflexivity.
    + exact Hhd.
    + exact Hlast.
  - apply (configure_kernels_ends input output axis MEAN_SUM SUM MEAN_SUM w Hs eq_refl).
Qed.

(** ** [validate] and the world *)

(** C9.  [validate] reads nothing of the world and changes nothing of it
    but the log of the calls it makes: on any two worlds it returns the same
    outcome after the same calls, which are all kernel validations; the
    function object, with its buffers, its memory group and their
    allocation state, is left as it was.  The descriptors are received
    through pointers to const and are values of the embedding. *)
Theorem validate_is_pure (input output : TensorInfo) (axis : N) (op : ReductionOperation)
  (w1 w2 : World) :
  snd (validate input output axis op w1) = snd (validate input output axis op w2) /\
  this (fst (validate input output axis op w1)) = this w1 /\
  exists calls : list event,
    Forall is_kernel_validate calls /\
    fst (validate input output axis op w1) = log w1 calls /\
    fst (validate input output axis op w2) = log w2 calls.
Proof.
  rewrite !validate_run.
  destruct (validate_plan input output axis op) as [rs|].
  - split; [reflexivity|]. split; [reflexivity|].
    exists (map request_event (fst (check_requests rs))).
    split; [|split; reflexivity].
    induction (fst (check_requests rs)) as [|r l IH]; simpl; constructor;
      [exact I | exact IH].
  - split; [reflexivity|]. split; [reflexivity|].
    exists []. split; [constructor|]. rewrite !log_nil. split; reflexivity.
Qed.

(** ** Indices *)

(** C10.  On the staged path the stage count is at least 2 (and fits an
    [unsigned int], so that [num_of_stages - 1] does not wrap around):
    [validate] creates at least one temporary descriptor, and the offset
    [last_stage - 1] lies inside that array; after [configure] the arrays
    of kernels and of border handlers hold [num_of_stages] elements and
    [_sums_vector] holds [num_of_stages - 1], so that the indices
    [last_stage] and [last_stage - 1] lie inside them; and none of
    [validate], [configure] and [run] reaches outside an array. *)
Theorem staged_indices_in_bounds (input output : CLTensor) (axis : N)
  (op : ReductionOperation) (w : World) :
  axis = 0 ->
  is_data_type_quantized (data_type (info input)) = false ->
  let n := calculate_number_of_stages (info input) axis in
  let last_stage := uint_sub n 1 in
  let o' := this (fst (configure input output axis op w)) in
  2 <= n < UINT_RANGE /\
  last_stage = n - 1 /\
  (exists sums : list TensorInfo,
     validate_sums_vector (info input) n w = (w, Ret sums) /\
     (1 <= length sums)%nat /\
     (0 <= Z.of_N last_stage - 1 < Z.of_nat (length sums))%Z) /\
  (N.to_nat last_stage < length (_reduction_kernels_vector o'))%nat /\
  (N.to_nat last_stage < length (_border_handlers_vector o'))%nat /\
  (0 <= Z.of_N last_stage - 1 < Z.of_nat (length (_sums_vector o')))%Z /\
  snd (validate (info input) (info output) axis op w) <> OutOfBounds /\
  snd (configure input output axis op w) <> OutOfBounds /\
  snd (run (fst (configure input output axis op w))) <> OutOfBounds.
Proof.
  intros Hax Hq n last_stage o'.
  assert (Hs : on_staged_path (info input) axis = true) by (apply on_staged_path_spec; auto).
  pose proof (stages_staged_bounds _ _ Hs) as [Hlo Hhi]. fold n in Hlo, Hhi.
  pose proof (staged_sub_1 _ _ Hs) as Hsub. fold n in Hsub. fold last_stage in Hsub.
  destruct (configure_lengths input output axis op w Hs) as (Hk & Hb & Hsv & Hn & Hra & Hrq).
  fold o' in Hk, Hb, Hsv, Hn, Hra, Hrq. fold n in Hk, Hb, Hsv, Hn.
  split; [split; assumption|]. split; [exact Hsub|]. split.
  { exists (intermediate_infos (info input) n).
    split; [apply validate_sums_vector_eq|].
    rewrite length_intermediate_infos. fold last_stage. lia. }
  split; [lia|]. split; [lia|]. split; [lia|]. split; [|split].
  - rewrite validate_run. destruct (validate_plan _ _ _ _); discriminate.
  - rewrite configure_run, Hs. destruct (select_ops op) as [[? ?]|]; discriminate.
  - rewrite run_run; [discriminate|].
    fold o'. rewrite Hra, Hrq, Hn, Hk, Hb, Hax. simpl. lia.
Qed.

End Properties.

(** * Further properties of the pipeline *)

Section PipelineProperties.
Context `{Collaborators}.

(** ** The stage count as a function of the extent *)

(** X1.  For a non-quantized input reduced along axis 0 whose axis-0 extent
    [d] is at most [2^24], the stage count is [(d + 127) / 16384 + 2]: it
    is 2 exactly up to [d = 16256] and grows by one stage with every 16384
    further elements. *)
Theorem stage_count_linear (input : TensorInfo) (axis : N) :
  axis = 0 ->
  is_data_type_quantized (data_type input) = false ->
  dimension input 0 <= 2 ^ 24 ->
  calculate_number_of_stages input axis = (dimension input 0 + 127) / 16384 + 2 /\
  (calculate_number_of_stages input axis = 2 <-> dimension input 0 <= 16256).
Proof.
  intros Hax Hq Hd.
  assert (Hs : on_staged_path input axis = true) by (apply on_staged_path_spec; auto).
  assert (E : calculate_number_of_stages input axis = (dimension input 0 + 127) / 16384 + 2).
  { rewrite (stage_count_formula_up_to_2_24 _ _ Hs Hd).
    unfold stage_count_formula, ceil_div.
    replace (dimension input 0 + 128 - 1) with (dimension input 0 + 127) by lia.
    rewrite N.Div0.div_div. reflexivity. }
  split; [exact E|]. rewrite E. split.
  - intros Hn. assert (Hz : (dimension input 0 + 127) / 16384 = 0) by lia.
    apply N.div_small_iff in Hz; lia.
  - intros Hle. rewrite N.div_small by lia. reflexivity.
Qed.

(** ** Bounds on the conversion to [float] *)

Lemma float_ulp_le (d : N) : 1 <= d -> 2 ^ (N.log2 d + 1 - FLT_MANT_DIG) <= d.
Proof.
  intros Hd. destruct (N.log2_spec d ltac:(lia)) as [Hlo _].
  eapply N.le_trans; [|exact Hlo].
  apply N.pow_le_mono_r; [discriminate|]. unfold FLT_MANT_DIG. lia.
Qed.

Lemma float_of_uint_bounds (d : N) :
  1 <= d -> 1 <= float_of_uint d <= 2 * d.
Proof.
  intros Hd. pose proof (float_ulp_le d Hd) as Hulp.
  unfold float_of_uint.
  set (ulp := 2 ^ (N.log2 d + 1 - FLT_MANT_DIG)) in *.
  assert (Hpos : 1 <= ulp).
  { subst ulp. change 1 with (2 ^ 0). apply N.pow_le_mono_r; [discriminate|]. lia. }
  pose proof (N.Div0.mul_div_le d ulp) as Hq.
  assert (Hq1 : 1 <= d / ulp).
  { apply N.div_le_lower_bound; lia. }
  assert (Hm : ulp <= d / ulp * ulp) by nia.
  destruct (2 * (d mod ulp) <? ulp); [lia|].
  destruct (ulp <? 2 * (d mod ulp)); [lia|].
  destruct (N.even (d / ulp)); lia.
Qed.

Lemma ceil_div_128f_0 : ceil_div_128f 0 = 0.
Proof. reflexivity. Qed.

Lemma ceil_div_128f_pos (d : N) : 1 <= d -> 1 <= ceil_div_128f d.
Proof.
  intros Hd. destruct (float_of_uint_bounds d Hd) as [Hlo _].
  unfold ceil_div_128f. apply N.div_le_lower_bound; lia.
Qed.

Lemma ceil_div_128f_upper (d b : N) :
  d <= b -> ceil_div_128f d <= (2 * b + 127) / 128.
Proof.
  intros Hd. unfold ceil_div_128f. apply N.Div0.div_le_mono.
  destruct (N.eq_dec d 0) as [->|Hz]; [change (float_of_uint 0) with 0; lia|].
  destruct (float_of_uint_bounds d ltac:(lia)) as [_ Hhi]. lia.
Qed.

Lemma ceil_div_128_mono (a b : N) : a <= b -> ceil_div a 128 <= ceil_div b 128.
Proof. intros Hab. unfold ceil_div. apply N.Div0.div_le_mono. lia. Qed.

(** ** Extents along the chain of intermediate shapes *)

Lemma shape_x_reduce_shape (shape : TensorShape) :
  shape_x (reduce_shape shape) = ceil_div_128f (shape_x shape).
Proof. destruct shape as [|d rest]; reflexivity. Qed.

Lemma reduced_shapes_zero_iff (count : nat) :
  forall shape : TensorShape,
    Forall (fun s => shape_x s = 0 <-> shape_x shape = 0) (reduced_shapes count shape).
Proof.
  induction count as [|c IH]; intros shape; [constructor|].
  cbn [reduced_shapes].
  assert (Hstep : shape_x (reduce_shape shape) = 0 <-> shape_x shape = 0).
  { rewrite shape_x_reduce_shape. split.
    - intros Hz. destruct (N.eq_dec (shape_x shape) 0) as [E|E]; [exact E|].
      pose proof (ceil_div_128f_pos (shape_x shape) ltac:(lia)). lia.
    - intros ->. reflexivity. }
  constructor; [exact Hstep|].
  eapply Forall_impl; [apply IH|]. cbn beta. intros s Hs. tauto.
Qed.

(** In the range where the conversion is exact the extents do not grow. *)
Lemma reduced_shapes_exact_le (count : nat) :
  forall (shape : TensorShape) (b : N),
    shape_x shape <= b -> b <= 2 ^ 24 ->
    Forall (fun s => shape_x s <= ceil_div b 128) (reduced_shapes count shape).
Proof.
  induction count as [|c IH]; intros shape b Hx Hb; [constructor|].
  cbn [reduced_shapes].
  assert (Hstep : shape_x (reduce_shape shape) <= ceil_div b 128).
  { rewrite shape_x_reduce_shape, ceil_div_128f_exact by lia.
    apply ceil_div_128_mono. exact Hx. }
  pose proof (ceil_div_128_le b) as Hle.
  constructor; [exact Hstep|].
  eapply Forall_impl; [apply (IH _ (ceil_div b 128) Hstep); lia|].
  cbn beta. intros s Hs. pose proof (ceil_div_128_le (ceil_div b 128)). lia.
Qed.

(** Four steps bring any extent below [2^32] down to at most 64. *)
Lemma reduced_shapes_four_steps (m : nat) (shape : TensorShape) (t : TensorShape) :
  shape_x shape < UINT_RANGE ->
  last (reduced_shapes (4 + m) shape) = Some t ->
  shape_x t <= 64.
Proof.
  intros Hx Hlast. cbn [Nat.add reduced_shapes] in Hlast.
  rewrite !last_cons_cons in Hlast.
  set (r1 := reduce_shape shape) in *. set (r2 := reduce_shape r1) in *.
  set (r3 := reduce_shape r2) in *. set (r4 := reduce_shape r3) in *.
  assert (H1 : shape_x r1 <= 67108864).
  { subst r1. rewrite shape_x_reduce_shape.
    eapply N.le_trans; [apply (ceil_div_128f_upper _ 4294967295)|].
    - change UINT_RANGE with 4294967296 in Hx. lia.
    - vm_compute. discriminate. }
  assert (H2 : shape_x r2 <= 1048576).
  { subst r2. rewrite shape_x_reduce_shape.
    eapply N.le_trans; [apply (ceil_div_128f_upper _ 67108864 H1)|].
    vm_compute. discriminate. }
  assert (H3 : shape_x r3 <= 8192).
  { subst r3. rewrite shape_x_reduce_shape, ceil_div_128f_exact
      by (change (2 ^ 24) with 16777216; lia).
    eapply N.le_trans; [apply (ceil_div_128_mono _ 1048576 H2)|].
    vm_compute. discriminate. }
  assert (H4 : shape_x r4 <= 64).
  { subst r4. rewrite shape_x_reduce_shape, ceil_div_128f_exact
      by (change (2 ^ 24) with 16777216; lia).
    eapply N.le_trans; [apply (ceil_div_128_mono _ 8192 H3)|].
    vm_compute. discriminate. }
  apply last_Some_elem_of in Hlast. apply elem_of_cons in Hlast as [->|Hin]; [exact H4|].
  pose proof (reduced_shapes_exact_le m r4 64 H4 ltac:(vm_compute; discriminate)) as Hall.
  rewrite Forall_forall in Hall.
  specialize (Hall _ Hin). change (ceil_div 64 128) with 1 in Hall. lia.
Qed.

(** The last shape of the chain, for the length the stage count gives it. *)
Lemma last_reduced_shape_le (shape t : TensorShape) :
  ceil_div_128f (shape_x shape) < UINT_RANGE ->
  last (reduced_shapes (N.to_nat (ceil_div_128f (shape_x shape) / 128 + 1)) shape) = Some t ->
  shape_x t <= 128.
Proof.
  intros Hwg Hlast.
  set (wg := ceil_div_128f (shape_x shape)) in *.
  replace (N.to_nat (wg / 128 + 1)) with (Datatypes.S (N.to_nat (wg / 128))) in Hlast by lia.
  cbn [reduced_shapes] in Hlast.
  assert (Hx1 : shape_x (reduce_shape shape) = wg) by apply shape_x_reduce_shape.
  destruct (N.to_nat (wg / 128)) as [|k'] eqn:Ek.
  - cbn in Hlast. injection Hlast as <-. rewrite Hx1.
    assert (wg / 128 = 0) by lia. apply N.div_small_iff in H1; lia.
  - destruct (N.le_gt_cases wg 16384) as [Hsmall|Hbig].
    + cbn [reduced_shapes] in Hlast. rewrite last_cons_cons in Hlast.
      apply last_Some_elem_of in Hlast.
      pose proof (reduced_shapes_exact_le (Datatypes.S k') (reduce_shape shape) 16384
                    ltac:(lia) ltac:(vm_compute; discriminate)) as Hall.
      cbn [reduced_shapes] in Hall. rewrite Forall_forall in Hall.
      specialize (Hall _ Hlast).
      change (ceil_div 16384 128) with 128 in Hall. exact Hall.
    + assert (Hk : (4 <= Datatypes.S k')%nat).
      { assert (128 <= wg / 128) by (apply N.div_le_lower_bound; lia). lia. }
      assert (Hlast' : last (reduced_shapes (4 + (Datatypes.S k' - 4)) (reduce_shape shape))
                       = Some t).
      { replace (4 + (Datatypes.S k' - 4))%nat with (Datatypes.S k') by lia.
        destruct (reduced_shapes (Datatypes.S k') (reduce_shape shape)) as [|a l] eqn:El.
        - apply (f_equal length) in El. rewrite length_reduced_shapes in El. discriminate.
        - rewrite last_cons_cons in Hlast. exact Hlast. }
      pose proof (reduced_shapes_four_steps _ _ _ ltac:(rewrite Hx1; exact Hwg) Hlast').
      lia.
Qed.

Lemma last_map {A B : Type} (f : A -> B) (l : list A) :
  last (map f l) = option_map f (last l).
Proof.
  induction l as [|a [|b l] IH]; try reflexivity.
  cbn [map]. rewrite !last_cons_cons. exact IH.
Qed.

Lemma lookup_map {A B : Type} (f : A -> B) (l : list A) (i : nat) :
  map f l !! i = option_map f (l !! i).
Proof.
  revert i. induction l as [|a l IH]; intros [|i]; try reflexivity. apply IH.
Qed.

(** The last intermediate descriptor of the staged path. *)
Lemma last_intermediate_info (input : TensorInfo) (axis : N) :
  on_staged_path input axis = true ->
  ceil_div_128f (dimension input 0) < UINT_RANGE ->
  exists i : TensorInfo,
    last (intermediate_infos input (calculate_number_of_stages input axis)) = Some i /\
    shape_x (tensor_shape i) <= 128.
Proof.
  intros Hs Hwg. pose proof (staged_sub_1 _ _ Hs) as Hsub.
  unfold intermediate_infos. rewrite Hsub, (stages_staged_small _ _ Hs Hwg).
  rewrite <- N.add_sub_assoc by (vm_compute; discriminate). change (2 - 1) with 1.
  rewrite last_map.
  destruct (last (reduced_shapes
                    (N.to_nat (ceil_div_128f (dimension input 0) / 128 + 1))
                    (tensor_shape input))) as [t|] eqn:El.
  - exists (intermediate_info input t). split; [reflexivity|].
    apply (last_reduced_shape_le (tensor_shape input) t Hwg El).
  - rewrite last_None in El. apply (f_equal length) in El.
    rewrite length_reduced_shapes in El. simpl in El.
    set (q := ceil_div_128f (dimension input 0) / 128) in El. lia.
Qed.

(** X2.  On the staged path, when the number of work groups fits an
    [unsigned int], the last intermediate descriptor, of [validate] and of
    [configure] alike, has at most 128 elements along axis 0: the last
    stage reads one work group. *)
Theorem last_stage_single_work_group (input output : CLTensor) (axis : N)
  (op : ReductionOperation) (w : World) :
  axis = 0 ->
  is_data_type_quantized (data_type (info input)) = false ->
  ceil_div_128f (dimension (info input) 0) < UINT_RANGE ->
  (exists (sums : list TensorInfo) (i : TensorInfo),
     validate_sums_vector (info input) (calculate_number_of_stages (info input) axis) w =
       (w, Ret sums) /\
     last sums = Some i /\ shape_x (tensor_shape i) <= 128) /\
  (exists t : CLTensor,
     last (_sums_vector (this (fst (configure input output axis op w)))) = Some t /\
     shape_x (tensor_shape (info t)) <= 128).
Proof.
  intros Hax Hq Hwg.
  assert (Hs : on_staged_path (info input) axis = true) by (apply on_staged_path_spec; auto).
  destruct (last_intermediate_info (info input) axis Hs Hwg) as (i & Hlast & Hle).
  split.
  - exists (intermediate_infos (info input) (calculate_number_of_stages (info input) axis)), i.
    split; [apply validate_sums_vector_eq|]. split; assumption.
  - rewrite <- (configure_sums_vector input output axis op w Hs) in Hlast.
    rewrite last_map in Hlast.
    destruct (last (_sums_vector (this (fst (configure input output axis op w)))))
      as [t|]; [|discriminate].
    exists t. split; [reflexivity|]. injection Hlast as <-. exact Hle.
Qed.

(** X3.  On the staged path an intermediate descriptor, of [validate] or of
    [configure], has axis-0 extent 0 exactly when the input has axis-0
    extent 0: a non-empty input never gets an empty intermediate buffer,
    and an empty one gets nothing else. *)
Theorem intermediate_extent_zero_iff (input output : CLTensor) (axis : N)
  (op : ReductionOperation) (w : World) :
  axis = 0 ->
  is_data_type_quantized (data_type (info input)) = false ->
  (exists sums : list TensorInfo,
     validate_sums_vector (info input) (calculate_number_of_stages (info input) axis) w =
       (w, Ret sums) /\
     Forall (fun i => shape_x (tensor_shape i) = 0 <-> dimension (info input) 0 = 0) sums) /\
  Forall (fun t => shape_x (tensor_shape (info t)) = 0 <-> dimension (info input) 0 = 0)
    (_sums_vector (this (fst (configure input output axis op w)))).
Proof.
  intros Hax Hq.
  assert (Hs : on_staged_path (info input) axis = true) by (apply on_staged_path_spec; auto).
  assert (Hall : Forall (fun i => shape_x (tensor_shape i) = 0 <-> dimension (info input) 0 = 0)
                   (intermediate_infos (info input)
                      (calculate_number_of_stages (info input) axis))).
  { unfold intermediate_infos.
    pose proof (reduced_shapes_zero_iff
                  (N.to_nat (uint_sub (calculate_number_of_stages (info input) axis) 1))
                  (tensor_shape (info input))) as Hz.
    induction Hz as [|s l Hx _ IH]; cbn [map]; constructor; auto. }
  split.
  - eexists. split; [apply validate_sums_vector_eq | exact Hall].
  - rewrite <- (configure_sums_vector input output axis op w Hs) in Hall.
    induction (_sums_vector (this (fst (configure input output axis op w)))) as [|t l IH].
    + constructor.
    + cbn [map] in Hall. inversion Hall; subst. constructor; auto.
Qed.

(** ** The pipeline [configure] builds *)

Lemma staged_kernels_lookup (axis : N) (first_op last_op : ReductionOperation)
  (width : N) (n i : nat) :
  (2 <= n)%nat -> (i < n)%nat ->
  staged_kernels axis first_op last_op width n !! i =
  Some (mkKernelConfig
          (if Nat.eqb i 0 then InputTensor else SumsTensor (i - 1))
          (if Nat.eqb i (n - 1) then OutputTensor else SumsTensor i)
          axis
          (if Nat.eqb i 0 then first_op else if Nat.eqb i (n - 1) then last_op else SUM)
          (if Nat.eqb i (n - 1) then Some width else None)).
Proof.
  intros Hn Hi. unfold staged_kernels.
  destruct i as [|i].
  - cbn [lookup list_lookup Nat.eqb].
    destruct (n - 1)%nat eqn:E; [lia|reflexivity].
  - rewrite lookup_cons. change (Nat.eqb (Datatypes.S i) 0) with false. cbv iota.
    destruct (Nat.eqb (Datatypes.S i) (n - 1)) eqn:E.
    + apply Nat.eqb_eq in E.
      rewrite lookup_app_r by (rewrite length_map, length_seq; lia).
      rewrite length_map, length_seq.
      replace (i - (n - 2))%nat with 0%nat by lia.
      replace (n - 2)%nat with (Datatypes.S i - 1)%nat by lia. reflexivity.
    + apply Nat.eqb_neq in E.
      rewrite lookup_app_l by (rewrite length_map, length_seq; lia).
      rewrite lookup_map, lookup_seq_lt by lia. reflexivity.
Qed.

(** X4.  After [configure] on the staged path with a supported kind, kernel
    [i] of the [n] kernels reads the caller's input if it is the first and
    intermediate tensor [i - 1] otherwise, writes the caller's output if it
    is the last and intermediate tensor [i] otherwise, works along the
    requested axis, and only the last kernel receives a scalar.  The
    stages form a chain from the input to the output, and every
    intermediate tensor a kernel points to exists: there are [n - 1] of
    them. *)
Theorem kernel_wiring (input output : CLTensor) (axis : N)
  (op first_op last_op : ReductionOperation) (w : World) (i : nat) :
  axis = 0 ->
  is_data_type_quantized (data_type (info input)) = false ->
  select_ops op = Some (first_op, last_op) ->
  (i < N.to_nat (calculate_number_of_stages (info input) axis))%nat ->
  let n := N.to_nat (calculate_number_of_stages (info input) axis) in
  let o' := this (fst (configure input output axis op w)) in
  _reduction_kernels_vector o' !! i =
    Some (Some (mkKernelConfig
                  (if Nat.eqb i 0 then InputTensor else SumsTensor (i - 1))
                  (if Nat.eqb i (n - 1) then OutputTensor else SumsTensor i)
                  axis
                  (if Nat.eqb i 0 then first_op
                   else if Nat.eqb i (n - 1) then last_op else SUM)
                  (if Nat.eqb i (n - 1)
                   then Some (uint_of_size_t (dimension (info input) 0)) else None))) /\
  length (_reduction_kernels_vector o') = n /\
  length (_sums_vector o') = (n - 1)%nat.
Proof.
  intros Hax Hq Hsel Hi n o'.
  assert (Hs : on_staged_path (info input) axis = true) by (apply on_staged_path_spec; auto).
  pose proof (stages_staged_bounds _ _ Hs) as [Hlo Hhi].
  assert (Hn : (2 <= n)%nat) by (subst n; lia).
  destruct (configure_lengths input output axis op w Hs) as (Hk & _ & Hsv & _).
  split; [|split; assumption].
  subst o'. rewrite configure_run, Hs, Hsel.
  cbn [fst this configure_staged_state _reduction_kernels_vector].
  rewrite lookup_map. fold n. rewrite (staged_kernels_lookup _ _ _ _ n i Hn Hi).
  reflexivity.
Qed.

(** X5.  After [configure] on the staged path with a supported kind every
    kernel has its border handler: the handler of a stage fills the border
    of the tensor the kernel of the stage reads, of the size that kernel
    asks for, with the constant 0. *)
Theorem border_handlers_follow_kernels (input output : CLTensor) (axis : N)
  (op first_op last_op : ReductionOperation) (w : World) (i : nat) (k : KernelConfig) :
  axis = 0 ->
  is_data_type_quantized (data_type (info input)) = false ->
  select_ops op = Some (first_op, last_op) ->
  _reduction_kernels_vector (this (fst (configure input output axis op w))) !! i =
    Some (Some k) ->
  _border_handlers_vector (this (fst (configure input output axis op w))) !! i =
    Some (Some (mkBorderConfig (k_input k) (kernel_border_size (Some k)) CONSTANT 0)) /\
  length (_border_handlers_vector (this (fst (configure input output axis op w)))) =
    length (_reduction_kernels_vector (this (fst (configure input output axis op w)))).
Proof.
  intros Hax Hq Hsel.
  assert (Hs : on_staged_path (info input) axis = true) by (apply on_staged_path_spec; auto).
  rewrite configure_run, Hs, Hsel.
  cbn [fst this configure_staged_state _reduction_kernels_vector _border_handlers_vector].
  rewrite !lookup_map, !length_map.
  destruct (staged_kernels axis first_op last_op _ _ !! i) as [k'|]; [|discriminate].
  cbn [option_map]. intros Hk. injection Hk as ->. split; reflexivity.
Qed.

(** X6.  After [configure] on the staged path with a supported kind each of
    the [n - 1] intermediate tensors has been handed to the memory group
    once, in ascending order, after what the group held before, and each
    has been allocated. *)
Theorem intermediates_managed_and_allocated (input output : CLTensor) (axis : N)
  (op first_op last_op : ReductionOperation) (w : World) :
  axis = 0 ->
  is_data_type_quantized (data_type (info input)) = false ->
  select_ops op = Some (first_op, last_op) ->
  let n := N.to_nat (calculate_number_of_stages (info input) axis) in
  let o' := this (fst (configure input output axis op w)) in
  _memory_group o' = _memory_group (this w) ++ map SumsTensor (seq 0 (n - 1)) /\
  length (_sums_vector o') = (n - 1)%nat /\
  Forall (fun t => is_allocated t = true) (_sums_vector o').
Proof.
  intros Hax Hq Hsel n o'.
  assert (Hs : on_staged_path (info input) axis = true) by (apply on_staged_path_spec; auto).
  destruct (configure_lengths input output axis op w Hs) as (_ & _ & Hsv & _).
  split; [|split; [exact Hsv|]]; subst o'; rewrite configure_run, Hs, Hsel;
    cbn [fst this configure_staged_state _memory_group _sums_vector].
  - reflexivity.
  - induction (reduced_shapes _ _) as [|s l IH]; cbn [map]; constructor; auto.
Qed.

(** X7.  [configure] on the staged path with a kind it does not support has
    changed the function object by the time it stops: the stage count, the
    axis and the quantization flag are those of the request, the [n - 1]
    intermediate tensors carry their descriptors but none is allocated,
    and the first of them has been handed to the memory group. *)
Theorem failed_configure_state (input output : CLTensor) (axis : N)
  (op : ReductionOperation) (w : World) :
  axis = 0 ->
  is_data_type_quantized (data_type (info input)) = false ->
  op <> SUM -> op <> MEAN_SUM -> op <> SUM_SQUARE ->
  let n := calculate_number_of_stages (info input) axis in
  let o' := this (fst (configure input output axis op w)) in
  _num_of_stages o' = n /\ _reduction_axis o' = axis /\ _is_quantized o' = false /\
  map info (_sums_vector o') = intermediate_infos (info input) n /\
  length (_sums_vector o') = N.to_nat (n - 1) /\
  Forall (fun t => is_allocated t = false) (_sums_vector o') /\
  _memory_group o' = _memory_group (this w) ++ [SumsTensor 0].
Proof.
  intros Hax Hq H1 H2 H3 n o'.
  assert (Hs : on_staged_path (info input) axis = true) by (apply on_staged_path_spec; auto).
  pose proof (select_ops_None op H1 H2 H3) as Hsel.
  destruct (configure_lengths input output axis op w Hs) as (_ & _ & Hsv & Hn & Hra & Hrq).
  pose proof (configure_sums_vector input output axis op w Hs) as Hinfo.
  split; [exact Hn|]. split; [exact Hra|]. split; [exact Hrq|]. split; [exact Hinfo|].
  split; [subst o' n; rewrite Hsv; lia|].
  subst o'. rewrite configure_run, Hs, Hsel.
  cbn [fst this configure_unsupported_state _memory_group _sums_vector].
  split; [|reflexivity].
  induction (reduced_shapes _ _) as [|s l IH]; cbn [map]; constructor; auto.
Qed.

(** X8.  On the staged path [configure] overwrites the pipeline: its
    outcome, the stage count, the axis, the flag, the intermediate
    tensors, the kernels and the border handlers it leaves do not depend
    on the function object it started from.  Only the memory group keeps
    what it held. *)
Theorem configure_overwrites (input output : CLTensor) (axis : N)
  (op : ReductionOperation) (w1 w2 : World) :
  axis = 0 ->
  is_data_type_quantized (data_type (info input)) = false ->
  let o1 := this (fst (configure input output axis op w1)) in
  let o2 := this (fst (configure input output axis op w2)) in
  snd (configure input output axis op w1) = snd (configure input output axis op w2) /\
  _num_of_stages o1 = _num_of_stages o2 /\
  _reduction_axis o1 = _reduction_axis o2 /\
  _is_quantized o1 = _is_quantized o2 /\
  _sums_vector o1 = _sums_vector o2 /\
  _reduction_kernels_vector o1 = _reduction_kernels_vector o2 /\
  _border_handlers_vector o1 = _border_handlers_vector o2 /\
  (exists managed : list tensor_ref,
     _memory_group o1 = _memory_group (this w1) ++ managed /\
     _memory_group o2 = _memory_group (this w2) ++ managed).
Proof.
  intros Hax Hq o1 o2.
  assert (Hs : on_staged_path (info input) axis = true) by (apply on_staged_path_spec; auto).
  subst o1 o2. rewrite !configure_run, Hs.
  destruct (select_ops op) as [[first_op last_op]|];
    cbn [fst snd this configure_staged_state configure_unsupported_state
         _memory_group _sums_vector _reduction_kernels_vector _border_handlers_vector
         _num_of_stages _reduction_axis _is_quantized];
    repeat (split; [reflexivity|]); eexists; split; reflexivity.
Qed.

(** ** The first failure ends [validate] *)

Lemma check_requests_outcome (rs : list StageRequest) :
  if is_error (snd (check_requests rs))
  then exists (pre : list StageRequest) (r : StageRequest),
         fst (check_requests rs) = pre ++ [r] /\
         snd (check_requests rs) = request_status r /\
         Forall (fun r' => is_error (request_status r') = false) pre
  else snd (check_requests rs) = Status_default /\
       fst (check_requests rs) = rs /\
       Forall (fun r' => is_error (request_status r') = false) rs.
Proof.
  induction rs as [|r rs IH]; cbn [check_requests].
  - cbn. repeat split; constructor.
  - destruct (is_error (request_status r)) eqn:E; cbn [fst snd].
    + rewrite E. exists [], r. repeat split; constructor.
    + destruct (is_error (snd (check_requests rs))).
      * destruct IH as (pre & r' & Hf & Hs & Hall).
        exists (r :: pre), r'. rewrite Hf. repeat split; [exact Hs|].
        constructor; assumption.
      * destruct IH as (Hs & Hf & Hall). rewrite Hf.
        repeat split; [exact Hs|]. constructor; assumption.
Qed.

Lemma length_middle_requests (axis : N) (sums : list TensorInfo) :
  length (middle_requests axis sums) = (length sums - 1)%nat.
Proof.
  induction sums as [|a [|b sums] IH]; try reflexivity.
  change (middle_requests axis (a :: b :: sums))
    with (mkStageRequest a b axis SUM None :: middle_requests axis (b :: sums)).
  cbn [length]. rewrite IH. cbn [length]. lia.
Qed.

Lemma length_stage_requests (input output : TensorInfo) (axis : N)
  (first_op last_op : ReductionOperation) (sums : list TensorInfo) :
  sums <> [] ->
  length (stage_requests input output axis first_op last_op sums) =
  Datatypes.S (length sums).
Proof.
  destruct sums as [|s0 sums]; [congruence|]. intros _.
  unfold stage_requests. cbn [length].
  rewrite length_app, length_middle_requests. cbn [length]. lia.
Qed.

Lemma length_validate_plan (input output : TensorInfo) (axis : N)
  (op : ReductionOperation) (rs : list StageRequest) :
  validate_plan input output axis op = Some rs ->
  length rs = N.to_nat (calculate_number_of_stages input axis).
Proof.
  unfold validate_plan. destruct (on_staged_path input axis) eqn:Hs.
  - destruct (select_ops op) as [[first_op last_op]|]; [|discriminate].
    intros Hrs. injection Hrs as <-.
    pose proof (stages_staged_bounds _ _ Hs) as [Hlo Hhi].
    pose proof (length_intermediate_infos input (calculate_number_of_stages input axis)) as Hl.
    rewrite (staged_sub_1 _ _ Hs) in Hl.
    rewrite length_stage_requests.
    + rewrite Hl. lia.
    + intros Hnil. rewrite Hnil in Hl. cbn [length] in Hl. lia.
  - intros Hrs. injection Hrs as <-.
    rewrite (stages_not_staged _ _ Hs). reflexivity.
Qed.

Lemma Forall_call_accepted (rs : list StageRequest) :
  Forall (fun r => is_error (request_status r) = false) rs ->
  Forall call_accepted (map request_event rs).
Proof.
  induction 1 as [|r rs Hr _ IH]; cbn [map]; constructor; [exact Hr|exact IH].
Qed.

(** X9.  When [validate] returns a status, either the status is an error:
    then it is the status the kernel gave to the last request [validate]
    submitted, every request before it was accepted, and nothing was
    submitted after it; or it is the default status: then [validate]
    submitted one request per stage and the kernel accepted each. *)
Theorem validate_stops_at_first_error (input output : TensorInfo) (axis : N)
  (op : ReductionOperation) (w w' : World) (s : Status) :
  validate input output axis op w = (w', Ret s) ->
  if is_error s
  then exists (calls : list event) (a b : TensorInfo) (ax : N)
         (o : ReductionOperation) (wd : option N),
         w' = log w (calls ++ [KernelValidate a b ax o wd]) /\
         s = kernel_validate a b ax o wd /\
         Forall call_accepted calls /\
         (length calls < N.to_nat (calculate_number_of_stages input axis))%nat
  else s = Status_default /\
       exists calls : list event,
         w' = log w calls /\
         Forall call_accepted calls /\
         length calls = N.to_nat (calculate_number_of_stages input axis).
Proof.
  rewrite validate_run.
  destruct (validate_plan input output axis op) as [rs|] eqn:Hplan; [|discriminate].
  intros Hv. injection Hv as <- <-.
  pose proof (length_validate_plan _ _ _ _ _ Hplan) as Hlen.
  pose proof (check_requests_outcome rs) as Hout.
  pose proof (check_requests_prefix rs) as [rest Hpre].
  destruct (is_error (snd (check_requests rs))).
  - destruct Hout as (pre & r & Hf & Hs & Hall).
    exists (map request_event pre), (r_input r), (r_output r), (r_axis r), (r_op r),
      (r_width r).
    rewrite Hf, map_app. repeat split.
    + exact Hs.
    + apply Forall_call_accepted, Hall.
    + apply (f_equal length) in Hpre. rewrite Hf, !length_app in Hpre.
      cbn [length] in Hpre. rewrite length_map. lia.
  - destruct Hout as (Hs & Hf & Hall). split; [exact Hs|].
    exists (map request_event rs). rewrite Hf. repeat split.
    + apply Forall_call_accepted, Hall.
    + rewrite length_map. exact Hlen.
Qed.

(** ** [run] on any object a caller can hold *)

Lemma run_ready_reachable (o : CLReductionOperation) :
  reachable o ->
  if (_reduction_axis o =? 0) && negb (_is_quantized o)
  then (N.to_nat (_num_of_stages o) <= length (_border_handlers_vector o)
        /\ N.to_nat (_num_of_stages o) <= length (_reduction_kernels_vector o))%nat
  else (0 < length (_reduction_kernels_vector o))%nat.
Proof.
  induction 1 as [|o input output axis op tr Hr IH|o tr Hr IH].
  - cbn. lia.
  - rewrite configure_run. destruct (on_staged_path (info input) axis) eqn:Hs.
    + pose proof Hs as Hs'. apply on_staged_path_spec in Hs' as [-> Hq].
      destruct (select_ops op) as [[first_op last_op]|];
        cbn [fst this configure_staged_state configure_unsupported_state
             _reduction_axis _is_quantized _num_of_stages _border_handlers_vector
             _reduction_kernels_vector];
        change ((0 =? 0) && negb false) with true; cbv iota.
      * rewrite !length_map, length_staged_kernels.
        -- lia.
        -- pose proof (stages_staged_bounds _ _ Hs). lia.
      * rewrite !length_replicate. lia.
    + cbn [fst this configure_single_state _reduction_axis _is_quantized
           _reduction_kernels_vector].
      change ((axis =? 0) && negb (is_data_type_quantized (data_type (info input))))
        with (on_staged_path (info input) axis).
      rewrite Hs. cbn [length]. lia.
  - rewrite (run_run (mkWorld o tr)) by exact IH. exact IH.
Qed.

(** X10.  On a function object a caller can hold, whether new, configured
    (also where [configure] stopped on an unsupported kind), reconfigured
    or already run, [run] completes: it acquires the memory group, makes
    the submissions the stored stage count, axis and flag ask for without
    leaving the kernel arrays, releases the memory group, and leaves the
    function object as it was. *)
Theorem run_completes_on_reachable (o : CLReductionOperation) (tr : list event) :
  reachable o ->
  run (mkWorld o tr) =
    (mkWorld o
       (tr ++ MemoryGroupAcquire
           :: (if (_reduction_axis o =? 0) && negb (_is_quantized o)
               then flat_map (fun i => [Enqueue (BorderHandler i) false;
                                        Enqueue (ReductionKernel i) false])
                      (seq 0 (N.to_nat (_num_of_stages o)))
               else [Enqueue (ReductionKernel 0) false])
           ++ [MemoryGroupRelease]),
     Ret tt).
Proof.
  intros Hr. rewrite (run_run (mkWorld o tr)) by (apply run_ready_reachable, Hr).
  reflexivity.
Qed.

(** ** What the intermediate tensors take from the input *)

Lemma Forall_map_info (P : TensorInfo -> Prop) (ts : list CLTensor) :
  Forall P (map info ts) -> Forall (fun t => P (info t)) ts.
Proof.
  induction ts as [|t ts IH]; cbn [map]; intros Hall; [constructor|].
  apply Forall_cons in Hall as [Ht Hts]. constructor; [exact Ht|exact (IH Hts)].
Qed.

(** X11.  Whatever the extents of the input, the intermediate descriptors
    of [validate] and the intermediate tensors of [configure] differ from
    the input in the axis-0 extent only: the extents of the other
    dimensions, the data type and the number of channels are the
    input's. *)
Theorem intermediates_differ_in_axis_0_only (input output : CLTensor) (axis : N)
  (op : ReductionOperation) (w : World) (d : N) (rest : list N) :
  axis = 0 ->
  is_data_type_quantized (data_type (info input)) = false ->
  tensor_shape (info input) = d :: rest ->
  (exists sums : list TensorInfo,
     validate_sums_vector (info input) (calculate_number_of_stages (info input) axis) w =
       (w, Ret sums) /\
     Forall (fun i => tail (tensor_shape i) = rest /\
                      data_type i = data_type (info input) /\
                      num_channels i = num_channels (info input)) sums) /\
  Forall (fun t => tail (tensor_shape (info t)) = rest /\
                   data_type (info t) = data_type (info input) /\
                   num_channels (info t) = num_channels (info input))
    (_sums_vector (this (fst (configure input output axis op w)))).
Proof.
  intros Hax Hq Hshape.
  assert (Hs : on_staged_path (info input) axis = true) by (apply on_staged_path_spec; auto).
  destruct (intermediate_descriptors_copy (info input) axis d rest Hs Hshape) as [_ Hall].
  split.
  - eexists. split; [apply validate_sums_vector_eq|exact Hall].
  - apply (Forall_map_info
             (fun i => tail (tensor_shape i) = rest /\
                       data_type i = data_type (info input) /\
                       num_channels i = num_channels (info input))).
    rewrite (configure_sums_vector input output axis op w Hs). exact Hall.
Qed.

(** X12.  For an axis-0 extent up to [2^24] the single-precision quotient
    is exact: the axis-0 extents of the intermediate tensors [configure]
    creates are [ceil(d / 128)], [ceil(ceil(d / 128) / 128)], and so on,
    one per stage but the last, and [validate] computes the same
    descriptors. *)
Theorem intermediate_extents_exact_up_to_2_24 (input output : CLTensor) (axis : N)
  (op : ReductionOperation) (w : World) :
  axis = 0 ->
  is_data_type_quantized (data_type (info input)) = false ->
  dimension (info input) 0 <= 2 ^ 24 ->
  let n := calculate_number_of_stages (info input) axis in
  map (fun t => shape_x (tensor_shape (info t)))
    (_sums_vector (this (fst (configure input output axis op w)))) =
    ceil_chain (N.to_nat (n - 1)) (dimension (info input) 0) /\
  validate_sums_vector (info input) n w =
    (w, Ret (map info (_sums_vector (this (fst (configure input output axis op w)))))).
Proof.
  intros Hax Hq Hd n.
  assert (Hs : on_staged_path (info input) axis = true) by (apply on_staged_path_spec; auto).
  pose proof (staged_sub_1 _ _ Hs) as Hsub. fold n in Hsub.
  pose proof (configure_sums_vector input output axis op w Hs) as Hcfg. fold n in Hcfg.
  split.
  - transitivity (map (fun i => shape_x (tensor_shape i))
                    (map info (_sums_vector (this (fst (configure input output axis op w)))))).
    { rewrite map_map. reflexivity. }
    rewrite Hcfg. unfold intermediate_infos. rewrite Hsub, map_map.
    cbn [intermediate_info tensor_shape].
    rewrite dimension_0 in Hd |- *.
    clear Hcfg Hsub. revert Hd.
    generalize (N.to_nat (n - 1)) as c. generalize (tensor_shape (info input)) as shape.
    clear. intros shape c. revert shape.
    induction c as [|c IH]; intros shape Hd; [reflexivity|].
    cbn [reduced_shapes ceil_chain map].
    assert (Hx : shape_x (reduce_shape shape) = ceil_div (shape_x shape) 128).
    { rewrite shape_x_reduce_shape. apply ceil_div_128f_exact, Hd. }
    rewrite <- Hx. f_equal. apply IH. rewrite Hx.
    pose proof (ceil_div_128_le (shape_x shape)). lia.
  - rewrite Hcfg. apply validate_sums_vector_eq.
Qed.

End PipelineProperties.

(** * The properties at concrete inputs *)

Section Witnesses.
#[local] Existing Instance sample_types.
#[local] Existing Instance sample_collaborators.

(** The smallest extent at which the single-precision quotient changes the
    stage count: 16793473 lies halfway between two [float]s and goes to the
    even one, 16793472. *)
Example stage_count_at_16793473 :
  calculate_number_of_stages (sample_info [16793473] F32) 0 = 1026 /\
  stage_count_formula 16793473 = 1027.
Proof. split; reflexivity. Qed.

Lemma stage_count_at_33570689_witness :
  dimension (sample_info [33570689] F32) 0 = 33570689 /\
  is_data_type_quantized (data_type (sample_info [33570689] F32)) = false /\
  calculate_number_of_stages (sample_info [33570689] F32) 0 = 2050 /\
  stage_count_formula (dimension (sample_info [33570689] F32) 0) = 2051.
Proof.
  split; [reflexivity|]. split; [reflexivity|].
  apply (stage_count_at_33570689 (sample_info [33570689] F32)); reflexivity.
Defined.

(** C2, as stated, at a concrete input: [validate] on a kind outside SUM,
    MEAN_SUM and SUM_SQUARE, along axis 0 of a non-quantized input of extent
    100, does not return a status, failed or not: it stops with the fatal
    error. *)
Lemma validate_unsupported_returns_no_status :
  snd (validate (sample_info [100; 3] F32) (sample_info [1; 3] F32) 0 (OTHER_KIND 0)
         sample_world) = Fatal "Not supported" /\
  ~ exists s : Status,
      snd (validate (sample_info [100; 3] F32) (sample_info [1; 3] F32) 0 (OTHER_KIND 0)
             sample_world) = Ret s.
Proof.
  split; [reflexivity|]. intros [s Hs]. vm_compute in Hs. discriminate Hs.
Qed.

Lemma unsupported_kind_is_fatal_witness :
  (0 = 0) /\
  is_data_type_quantized (data_type (info (sample_tensor [100; 3] F32))) = false /\
  OTHER_KIND 0 <> SUM /\ OTHER_KIND 0 <> MEAN_SUM /\ OTHER_KIND 0 <> SUM_SQUARE /\
  validate (info (sample_tensor [100; 3] F32)) (info (sample_tensor [1; 3] F32)) 0
    (OTHER_KIND 0) sample_world = (sample_world, Fatal "Not supported").
Proof.
  split; [reflexivity|]. split; [reflexivity|].
  split; [discriminate|]. split; [discriminate|]. split; [discriminate|].
  apply (proj1 (unsupported_kind_is_fatal (sample_tensor [100; 3] F32)
                  (sample_tensor [1; 3] F32) 0 (OTHER_KIND 0) sample_world
                  eq_refl eq_refl
                  ltac:(discriminate) ltac:(discriminate) ltac:(discriminate))).
Defined.

Lemma single_stage_off_the_staged_path_witness :
  (0 <> 0 \/
   is_data_type_quantized (data_type (info (sample_tensor [100000; 3] QASYMM8))) = true) /\
  calculate_number_of_stages (info (sample_tensor [100000; 3] QASYMM8)) 0 = 1.
Proof.
  split; [right; reflexivity|].
  apply (proj1 (single_stage_off_the_staged_path (sample_tensor [100000; 3] QASYMM8)
                  (sample_tensor [1; 3] QASYMM8) 0 SUM sample_world
                  (or_intror eq_refl))).
Defined.

Lemma staged_kinds_witness :
  (0 = 0) /\
  is_data_type_quantized (data_type (info (sample_tensor [100000; 3] F32))) = false /\
  select_ops MEAN_SUM = Some (SUM, MEAN_SUM) /\
  map (option_map k_op)
    (_reduction_kernels_vector
       (this (fst (configure (sample_tensor [100000; 3] F32) (sample_tensor [1; 3] F32)
                     0 MEAN_SUM sample_world)))) =
  map Some [SUM; SUM; SUM; SUM; SUM; SUM; SUM; MEAN_SUM].
Proof.
  split; [reflexivity|]. split; [reflexivity|]. split; [reflexivity|].
  apply (proj2 (proj2 (staged_kinds (sample_tensor [100000; 3] F32)
                         (sample_tensor [1; 3] F32) 0 MEAN_SUM SUM MEAN_SUM sample_world
                         eq_refl eq_refl eq_refl))).
Defined.

Lemma first_intermediate_extent_at_33570689_witness :
  tensor_shape (info (sample_tensor [33570689; 3] F32)) = [33570689; 3] /\
  is_data_type_quantized (data_type (info (sample_tensor [33570689; 3] F32))) = false /\
  exists (t0 : CLTensor) (sums : list CLTensor),
    _sums_vector
      (this (fst (configure (sample_tensor [33570689; 3] F32) (sample_tensor [1; 3] F32)
                    0 SUM sample_world))) = t0 :: sums /\
    tensor_shape (info t0) = [262271; 3].
Proof.
  split; [reflexivity|]. split; [reflexivity|].
  apply (proj2 (proj2 (first_intermediate_extent_at_33570689
                         (sample_tensor [33570689; 3] F32) (sample_tensor [1; 3] F32)
                         SUM sample_world [3] eq_refl eq_refl))).
Defined.

Lemma run_submissions_witness :
  let w' := fst (configure (sample_tensor [100; 3] F32) (sample_tensor [1; 3] F32) 0 SUM
                   sample_world) in
  configure (sample_tensor [100; 3] F32) (sample_tensor [1; 3] F32) 0 SUM sample_world =
    (w', Ret tt) /\
  run (mkWorld (this w') []) =
    (mkWorld (this w')
       ([] ++ MemoryGroupAcquire
           :: flat_map stage_submissions (seq 0 2) ++ [MemoryGroupRelease]),
     Ret tt).
Proof.
  intros w'.
  assert (Hcfg : configure (sample_tensor [100; 3] F32) (sample_tensor [1; 3] F32) 0 SUM
                   sample_world = (w', Ret tt)) by (vm_compute; reflexivity).
  split; [exact Hcfg|].
  exact (proj1 (run_submissions (sample_tensor [100; 3] F32)
                  (sample_tensor [1; 3] F32) 0 SUM sample_world w' [] Hcfg)).
Defined.

(** C8, as stated, at a concrete input: for an input of axis-0 extent
    [2^32] the scalar of the last kernel is not the extent (it is 0). *)
Lemma mean_sum_width_at_2_32 :
  ~ exists k : KernelConfig,
      last (_reduction_kernels_vector
              (this (fst (configure (sample_tensor [4294967296; 3] F32)
                            (sample_tensor [1; 3] F32) 0 MEAN_SUM sample_world)))) =
        Some (Some k) /\
      k_width k = Some (dimension (info (sample_tensor [4294967296; 3] F32)) 0).
Proof.
  intros [k [Hl Hw]].
  destruct (configure_kernels_ends (sample_tensor [4294967296; 3] F32)
              (sample_tensor [1; 3] F32) 0 MEAN_SUM SUM MEAN_SUM sample_world
              eq_refl eq_refl) as (_ & _ & Hlast).
  rewrite Hlast in Hl.
  pose proof (f_equal (fun x : option (option KernelConfig) =>
                         match x with Some (Some c) => k_width c | _ => None end) Hl) as Hk.
  cbv beta iota in Hk. cbn [k_width] in Hk. rewrite Hw in Hk.
  pose proof (f_equal (fun o : option N => match o with Some x => x | None => 0 end) Hk)
    as Hd.
  vm_compute in Hd. discriminate Hd.
Qed.

Lemma mean_sum_stages_witness :
  (0 = 0) /\
  is_data_type_quantized (data_type (info (sample_tensor [100000; 3] F32))) = false /\
  last (_reduction_kernels_vector
          (this (fst (configure (sample_tensor [100000; 3] F32) (sample_tensor [1; 3] F32)
                        0 MEAN_SUM sample_world)))) =
    Some (Some (mkKernelConfig (SumsTensor 6) OutputTensor 0 MEAN_SUM (Some 100000))).
Proof.
  split; [reflexivity|]. split; [reflexivity|].
  apply (proj2 (proj2 (proj2 (mean_sum_stages (sample_tensor [100000; 3] F32)
                                (sample_tensor [1; 3] F32) 0 sample_world
                                eq_refl eq_refl)))).
Defined.

Lemma staged_indices_in_bounds_witness :
  (0 = 0) /\
  is_data_type_quantized (data_type (info (sample_tensor [100000; 3] F32))) = false /\
  2 <= calculate_number_of_stages (info (sample_tensor [100000; 3] F32)) 0 < UINT_RANGE.
Proof.
  split; [reflexivity|]. split; [reflexivity|].
  apply (proj1 (staged_indices_in_bounds (sample_tensor [100000; 3] F32)
                  (sample_tensor [1; 3] F32) 0 SUM sample_world eq_refl eq_refl)).
Defined.

End Witnesses.

(** * The further properties at concrete inputs *)

Section PipelineWitnesses.
#[local] Existing Instance sample_types.
#[local] Existing Instance sample_collaborators.

Lemma stage_count_linear_witness :
  (0 = 0) /\
  is_data_type_quantized (data_type (sample_info [100000; 3] F32)) = false /\
  dimension (sample_info [100000; 3] F32) 0 <= 2 ^ 24 /\
  calculate_number_of_stages (sample_info [100000; 3] F32) 0 = 8.
Proof.
  split; [reflexivity|]. split; [reflexivity|].
  split; [vm_compute; discriminate|].
  apply (proj1 (stage_count_linear (sample_info [100000; 3] F32) 0 eq_refl eq_refl
                  ltac:(vm_compute; discriminate))).
Defined.

Lemma last_stage_single_work_group_witness :
  (0 = 0) /\
  is_data_type_quantized (data_type (info (sample_tensor [100000; 3] F32))) = false /\
  ceil_div_128f (dimension (info (sample_tensor [100000; 3] F32)) 0) < UINT_RANGE /\
  exists t : CLTensor,
    last (_sums_vector
            (this (fst (configure (sample_tensor [100000; 3] F32) (sample_tensor [1; 3] F32)
                          0 SUM sample_world)))) = Some t /\
    shape_x (tensor_shape (info t)) <= 128.
Proof.
  split; [reflexivity|]. split; [reflexivity|]. split; [reflexivity|].
  apply (proj2 (last_stage_single_work_group (sample_tensor [100000; 3] F32)
                  (sample_tensor [1; 3] F32) 0 SUM sample_world eq_refl eq_refl eq_refl)).
Defined.

Lemma intermediate_extent_zero_iff_witness :
  (0 = 0) /\
  is_data_type_quantized (data_type (info (sample_tensor [0; 3] F32))) = false /\
  Forall (fun t : CLTensor =>
            shape_x (tensor_shape (info t)) = 0 <->
            dimension (info (sample_tensor [0; 3] F32)) 0 = 0)
    (_sums_vector
       (this (fst (configure (sample_tensor [0; 3] F32) (sample_tensor [1; 3] F32)
                     0 SUM sample_world)))).
Proof.
  split; [reflexivity|]. split; [reflexivity|].
  apply (proj2 (intermediate_extent_zero_iff (sample_tensor [0; 3] F32)
                  (sample_tensor [1; 3] F32) 0 SUM sample_world eq_refl eq_refl)).
Defined.

Lemma kernel_wiring_witness :
  (0 = 0) /\
  is_data_type_quantized (data_type (info (sample_tensor [100000; 3] F32))) = false /\
  select_ops SUM_SQUARE = Some (SUM_SQUARE, SUM) /\
  lt 3 (N.to_nat (calculate_number_of_stages (info (sample_tensor [100000; 3] F32)) 0)) /\
  _reduction_kernels_vector
    (this (fst (configure (sample_tensor [100000; 3] F32) (sample_tensor [1; 3] F32)
                  0 SUM_SQUARE sample_world))) !! 3%nat =
    Some (Some (mkKernelConfig (SumsTensor 2) (SumsTensor 3) 0 SUM None)).
Proof.
  split; [reflexivity|]. split; [reflexivity|]. split; [reflexivity|].
  split; [vm_compute; lia|].
  apply (proj1 (kernel_wiring (sample_tensor [100000; 3] F32) (sample_tensor [1; 3] F32)
                  0 SUM_SQUARE SUM_SQUARE SUM sample_world 3 eq_refl eq_refl eq_refl
                  ltac:(vm_compute; lia))).
Defined.

Lemma border_handlers_follow_kernels_witness :
  (0 = 0) /\
  is_data_type_quantized (data_type (info (sample_tensor [100; 3] F32))) = false /\
  select_ops SUM = Some (SUM, SUM) /\
  _reduction_kernels_vector
    (this (fst (configure (sample_tensor [100; 3] F32) (sample_tensor [1; 3] F32)
                  0 SUM sample_world))) !! 1%nat =
    Some (Some (mkKernelConfig (SumsTensor 0) OutputTensor 0 SUM (Some 100))) /\
  _border_handlers_vector
    (this (fst (configure (sample_tensor [100; 3] F32) (sample_tensor [1; 3] F32)
                  0 SUM sample_world))) !! 1%nat =
    Some (Some (mkBorderConfig (SumsTensor 0) 0 CONSTANT 0)).
Proof.
  split; [reflexivity|]. split; [reflexivity|]. split; [reflexivity|].
  split; [reflexivity|].
  apply (proj1 (border_handlers_follow_kernels (sample_tensor [100; 3] F32)
                  (sample_tensor [1; 3] F32) 0 SUM SUM SUM sample_world 1
                  (mkKernelConfig (SumsTensor 0) OutputTensor 0 SUM (Some 100))
                  eq_refl eq_refl eq_refl eq_refl)).
Defined.

Lemma intermediates_managed_and_allocated_witness :
  (0 = 0) /\
  is_data_type_quantized (data_type (info (sample_tensor [100000; 3] F32))) = false /\
  select_ops SUM = Some (SUM, SUM) /\
  _memory_group
    (this (fst (configure (sample_tensor [100000; 3] F32) (sample_tensor [1; 3] F32)
                  0 SUM sample_world))) =
    [] ++ map SumsTensor (seq 0 7).
Proof.
  split; [reflexivity|]. split; [reflexivity|]. split; [reflexivity|].
  apply (proj1 (intermediates_managed_and_allocated (sample_tensor [100000; 3] F32)
                  (sample_tensor [1; 3] F32) 0 SUM SUM SUM sample_world
                  eq_refl eq_refl eq_refl)).
Defined.

Lemma failed_configure_state_witness :
  (0 = 0) /\
  is_data_type_quantized (data_type (info (sample_tensor [100000; 3] F32))) = false /\
  OTHER_KIND 0 <> SUM /\ OTHER_KIND 0 <> MEAN_SUM /\ OTHER_KIND 0 <> SUM_SQUARE /\
  _num_of_stages
    (this (fst (configure (sample_tensor [100000; 3] F32) (sample_tensor [1; 3] F32)
                  0 (OTHER_KIND 0) sample_world))) =
    calculate_number_of_stages (info (sample_tensor [100000; 3] F32)) 0.
Proof.
  split; [reflexivity|]. split; [reflexivity|].
  split; [discriminate|]. split; [discriminate|]. split; [discriminate|].
  apply (proj1 (failed_configure_state (sample_tensor [100000; 3] F32)
                  (sample_tensor [1; 3] F32) 0 (OTHER_KIND 0) sample_world
                  eq_refl eq_refl
                  ltac:(discriminate) ltac:(discriminate) ltac:(discriminate))).
Defined.

Lemma configure_overwrites_witness :
  (0 = 0) /\
  is_data_type_quantized (data_type (info (sample_tensor [100; 3] F32))) = false /\
  _reduction_kernels_vector
    (this (fst (configure (sample_tensor [100; 3] F32) (sample_tensor [1; 3] F32) 0 SUM
                  sample_world))) =
  _reduction_kernels_vector
    (this (fst (configure (sample_tensor [100; 3] F32) (sample_tensor [1; 3] F32) 0 SUM
                  (fst (configure (sample_tensor [100000; 3] F32)
                          (sample_tensor [1; 3] F32) 0 MEAN_SUM sample_world))))).
Proof.
  split; [reflexivity|]. split; [reflexivity|].
  apply (proj1 (proj2 (proj2 (proj2 (proj2 (proj2
           (configure_overwrites (sample_tensor [100; 3] F32) (sample_tensor [1; 3] F32)
              0 SUM sample_world
              (fst (configure (sample_tensor [100000; 3] F32)
                      (sample_tensor [1; 3] F32) 0 MEAN_SUM sample_world))
              eq_refl eq_refl))))))).
Defined.

Lemma run_completes_on_reachable_witness :
  reachable
    (this (fst (configure (sample_tensor [100; 3] F32) (sample_tensor [1; 3] F32) 0
                  (OTHER_KIND 0) sample_world))) /\
  snd (run (mkWorld
              (this (fst (configure (sample_tensor [100; 3] F32) (sample_tensor [1; 3] F32)
                            0 (OTHER_KIND 0) sample_world))) [])) = Ret tt.
Proof.
  assert (Hr : reachable
                 (this (fst (configure (sample_tensor [100; 3] F32)
                               (sample_tensor [1; 3] F32) 0 (OTHER_KIND 0) sample_world)))).
  { apply (reachable_configure CLReductionOperation_new (sample_tensor [100; 3] F32)
             (sample_tensor [1; 3] F32) 0 (OTHER_KIND 0) []).
    apply reachable_new. }
  split; [exact Hr|].
  rewrite (run_completes_on_reachable _ [] Hr). reflexivity.
Defined.

Lemma intermediates_differ_in_axis_0_only_witness :
  (0 = 0) /\
  is_data_type_quantized (data_type (info (sample_tensor [100000; 3] F32))) = false /\
  tensor_shape (info (sample_tensor [100000; 3] F32)) = [100000; 3] /\
  Forall (fun t : CLTensor =>
            tail (tensor_shape (info t)) = [3] /\
            data_type (info t) = data_type (info (sample_tensor [100000; 3] F32)) /\
            num_channels (info t) = num_channels (info (sample_tensor [100000; 3] F32)))
    (_sums_vector
       (this (fst (configure (sample_tensor [100000; 3] F32) (sample_tensor [1; 3] F32)
                     0 SUM sample_world)))).
Proof.
  split; [reflexivity|]. split; [reflexivity|]. split; [reflexivity|].
  apply (proj2 (intermediates_differ_in_axis_0_only (sample_tensor [100000; 3] F32)
                  (sample_tensor [1; 3] F32) 0 SUM sample_world 100000 [3]
                  eq_refl eq_refl eq_refl)).
Defined.

Lemma intermediate_extents_exact_up_to_2_24_witness :
  (0 = 0) /\
  is_data_type_quantized (data_type (info (sample_tensor [100000; 3] F32))) = false /\
  dimension (info (sample_tensor [100000; 3] F32)) 0 <= 2 ^ 24 /\
  map (fun t : CLTensor => shape_x (tensor_shape (info t)))
    (_sums_vector
       (this (fst (configure (sample_tensor [100000; 3] F32) (sample_tensor [1; 3] F32)
                     0 SUM sample_world)))) =
    [782; 7; 1; 1; 1; 1; 1].
Proof.
  split; [reflexivity|]. split; [reflexivity|].
  split; [vm_compute; discriminate|].
  apply (proj1 (intermediate_extents_exact_up_to_2_24 (sample_tensor [100000; 3] F32)
                  (sample_tensor [1; 3] F32) 0 SUM sample_world eq_refl eq_refl
                  ltac:(vm_compute; discriminate))).
Defined.

End PipelineWitnesses.

Section RejectingKernelWitness.
#[local] Existing Instance sample_types.
#[local] Existing Instance rejecting_collaborators.

(** With a kernel that rejects every request, [validate] on a three-stage
    input stops after the first request. *)
Lemma validate_stops_at_first_error_witness :
  let w := mkWorld CLReductionOperation_new [] in
  let v := validate (sample_info [20000; 3] F32) (sample_info [1; 3] F32) 0 SUM w in
  validate (sample_info [20000; 3] F32) (sample_info [1; 3] F32) 0 SUM w =
    (fst v, Ret (mkStatus RUNTIME_ERROR "rejected")) /\
  exists (calls : list event) (a b : TensorInfo) (ax : N)
    (o : ReductionOperation) (wd : option N),
    fst v = log w (calls ++ [KernelValidate a b ax o wd]) /\
    mkStatus RUNTIME_ERROR "rejected" = kernel_validate a b ax o wd /\
    Forall call_accepted calls /\
    lt (length calls)
       (N.to_nat (calculate_number_of_stages (sample_info [20000; 3] F32) 0)).
Proof.
  intros w v.
  assert (Hv : validate (sample_info [20000; 3] F32) (sample_info [1; 3] F32) 0 SUM w =
                 (fst v, Ret (mkStatus RUNTIME_ERROR "rejected")))
    by (vm_compute; reflexivity).
  split; [exact Hv|].
  exact (validate_stops_at_first_error (sample_info [20000; 3] F32)
           (sample_info [1; 3] F32) 0 SUM w (fst v)
           (mkStatus RUNTIME_ERROR "rejected") Hv).
Defined.

End RejectingKernelWitness.
